(** * SEO Trend Analyzer: scoring engine and keyword analyzer

    A shallow embedding of [services/scoring.ts] (class [ScoringEngine]) and
    of the two aggregation methods of [services/keyword-analyzer.ts] (class
    [KeywordAnalyzer]) that the specification talks about, together with the
    record types of [types/index.ts].

    Numbers.  The [integer] columns of the schema ([search_volume],
    [competition_index]) are [Z]; the [float] columns ([niche_saturation],
    [velocity_score], [growth_7d], ...) are exact rationals [Q].  Arithmetic
    on them is exact: the binary64 rounding of the intermediate products is
    not part of the model.  [Math.round] goes from [Q] to [Z].  The one
    place of the analyzer where a non-finite value arises (a division by an
    array length) uses the explicit type [JsNumber] below.

    The exact model and the binary64 arithmetic of the sources order and
    bound their results alike, but where the exact sum is a tie of
    [Math.round] the rounded integers can differ by one.  What is said of
    the very value of [calculateSEOScore] is therefore said of
    [Binary64.calculateSEOScore], the same function on doubles. *)

From Stdlib Require Import ZArith QArith Qround Qminmax Lqa Lia Bool.
From Stdlib Require Import List String Ascii DecimalString Sorted Permutation.
From Stdlib Require Import PrimFloat SpecFloat FloatOps Uint63.
Import ListNotations.

Open Scope Q_scope.

(* ================================================================== *)
(** * JavaScript built-ins used by the sources *)

(** Comparisons of two finite numbers. *)
Definition Qltb (a b : Q) : bool := negb (Qle_bool b a).
Definition Qgtb (a b : Q) : bool := Qltb b a.

Module Math.

(** [Math.min(a, b)] and [Math.max(a, b)] on finite numbers. *)
Definition min (a b : Q) : Q := if Qle_bool a b then a else b.
Definition max (a b : Q) : Q := if Qle_bool a b then b else a.

(** [Math.floor(x)]. *)
Definition floor (x : Q) : Z := Qfloor x.

(** [Math.round(x)]: the nearest integer, a tie going towards +Infinity,
    that is [floor (x + 1/2)]. *)
Definition round (x : Q) : Z := Qfloor (x + (1 # 2)).

End Math.

(** The result of a division the source does not guard: [0 / 0] is [NaN],
    a non-zero number over [0] is an infinity. *)
Inductive JsNumber : Type :=
| Finite (q : Q)
| NaN
| Infinity (negative : bool).

Definition js_div (a b : Q) : JsNumber :=
  if Qeq_bool b 0 then
    if Qeq_bool a 0 then NaN else Infinity (Qltb a 0)
  else Finite (a / b).

(** [Math.round] on a possibly non-finite number: [NaN] and the infinities
    are returned as they are. *)
Definition js_round (x : JsNumber) : JsNumber :=
  match x with
  | Finite q => Finite (inject_Z (Math.round q))
  | NaN => NaN
  | Infinity s => Infinity s
  end.

(** [String(n)] / template-literal interpolation of an integer (decimal
    digits, a leading minus sign for negatives; the exponent form that
    JavaScript switches to from 10^21 on is out of the model). *)
Definition Number_toString (n : Z) : string :=
  NilZero.string_of_int (Z.to_int n).

Module JsArray.

Section Generic.
Context {A : Type}.

(** [arr.push(x)] on an array held in a local variable. *)
Definition push (arr : list A) (x : A) : list A := arr ++ [x].

(** [arr[i]]: [undefined] ([None]) outside [0 .. length-1]. *)
Definition get (arr : list A) (i : Z) : option A :=
  if (i <? 0)%Z then None else nth_error arr (Z.to_nat i).

(** [arr.sort(compare)].  ECMAScript (2019 on) requires the sort to be
    stable: for a consistent comparator the result is the one of any
    stable sort.  It is modelled by a stable insertion sort: [x] moves
    behind [y] only when [compare x y > 0]. *)
Fixpoint insert (compare : A -> A -> Z) (x : A) (l : list A) : list A :=
  match l with
  | [] => [x]
  | y :: l' =>
      if (0 <? compare x y)%Z then y :: insert compare x l'
      else x :: l
  end.

Fixpoint sort (compare : A -> A -> Z) (l : list A) : list A :=
  match l with
  | [] => []
  | x :: l' => insert compare x (sort compare l')
  end.

End Generic.

(** [arr.join(sep)] on an array of strings. *)
Definition join (sep : string) (arr : list string) : string :=
  String.concat sep arr.

End JsArray.

(* ================================================================== *)
(** * Data model ([types/index.ts]) *)

Inductive TrendStatus : Type :=
| rising | stable | declining | peak | seasonal.

Inductive RevenueTier : Type :=
| low | medium | high | very_high.

Module Keyword.
Record t : Type := mk {
  id : string;
  keyword : string;
  search_volume : Z;
  competition_index : Z;
  category : string;
  trend_status : TrendStatus;
  created_at : string;
  updated_at : string
}.
End Keyword.

Module KeywordMetrics.
Record t : Type := mk {
  id : string;
  keyword_id : string;
  click_volume : Z;
  conversion_potential : Q;
  niche_saturation : Q;
  commercial_intent : Q;
  recorded_at : string
}.
End KeywordMetrics.

Module TrendAnalysis.
Record t : Type := mk {
  id : string;
  keyword_id : string;
  velocity_score : Q;
  seasonality_pattern : string;
  peak_month : option Z;
  growth_7d : Q;
  growth_30d : Q;
  analyzed_at : string
}.
End TrendAnalysis.

Module OpportunityScore.
Record t : Type := mk {
  keyword : string;
  opportunity_score : Z;
  search_volume : Z;
  competition_index : Z;
  category : string;
  reason : string;
  potential_revenue_tier : RevenueTier
}.
End OpportunityScore.

(* ================================================================== *)
(** * [ScoringEngine] ([services/scoring.ts]) *)

Module ScoringEngine.

Open Scope string_scope.

(** [generateReason]: the factors are pushed in source order and joined
    with a full stop and a blank. *)
Definition generateReason (keyword : Keyword.t)
    (metrics : option KeywordMetrics.t)
    (trend : option TrendAnalysis.t) : string :=
  let factors : list string := [] in
  let factors :=
    if (500 <? Keyword.search_volume keyword)%Z then
      JsArray.push factors
        ("High search volume ("
           ++ Number_toString (Keyword.search_volume keyword)
           ++ " searches)")
    else factors in
  let factors :=
    if (Keyword.competition_index keyword <? 40)%Z then
      JsArray.push factors "Low competition"
    else if (70 <? Keyword.competition_index keyword)%Z then
      JsArray.push factors "High competition market"
    else factors in
  let factors :=
    match trend with
    | Some tr =>
        if Qgtb (TrendAnalysis.velocity_score tr) 50 then
          JsArray.push factors "Rapidly rising trend"
        else if Qgtb (TrendAnalysis.velocity_score tr) 20 then
          JsArray.push factors "Growing trend"
        else factors
    | None => factors
    end in
  let factors :=
    match Keyword.trend_status keyword with
    | peak => JsArray.push factors "Currently at peak popularity"
    | rising => JsArray.push factors "Trending upward"
    | _ => factors
    end in
  let factors :=
    match metrics with
    | Some m =>
        if Qgtb (KeywordMetrics.commercial_intent m) 70 then
          JsArray.push factors "High buyer intent"
        else factors
    | None => factors
    end in
  if (0 <? List.length factors)%nat then JsArray.join ". " factors
  else "Moderate opportunity".

(** [categorizeRevenueTier]. *)
Definition categorizeRevenueTier
    (opportunityScore searchVolume competitionIndex : Z) : RevenueTier :=
  if ((80 <? opportunityScore) && (1000 <? searchVolume)
      && (competitionIndex <? 30))%Z%bool then very_high
  else if ((70 <? opportunityScore) && (500 <? searchVolume))%Z%bool
  then high
  else if (50 <? opportunityScore)%Z then medium
  else low.

(** The local constant [opportunityScore] of [calculateOpportunityScore]
    (source lines 326-338): the rounded weighted sum, before the clamp. *)
Definition opportunityScore (keyword : Keyword.t)
    (metrics : option KeywordMetrics.t)
    (trend : option TrendAnalysis.t) : Z :=
  let searchVolume := inject_Z (Keyword.search_volume keyword) in
  let competitionIndex := inject_Z (Keyword.competition_index keyword) in
  let velocityScore :=
    match trend with
    | Some tr => TrendAnalysis.velocity_score tr
    | None => 0
    end in
  let niche_saturation :=
    match metrics with
    | Some m => KeywordMetrics.niche_saturation m
    | None => 50
    end in
  let volumeScore := Math.min (searchVolume / 100) 100 in
  let competitionScore := (100 - competitionIndex) * 0.4 in
  let trendScore := Math.max 0 velocityScore * 0.3 in
  let saturationScore := (100 - niche_saturation) * 0.2 in
  Math.round
    ((volumeScore * 0.2 + competitionScore + trendScore + saturationScore)
       / 1.7).

(** [calculateOpportunityScore]. *)
Definition calculateOpportunityScore (keyword : Keyword.t)
    (metrics : option KeywordMetrics.t)
    (trend : option TrendAnalysis.t) : OpportunityScore.t :=
  let searchVolume := Keyword.search_volume keyword in
  let competitionIndex := Keyword.competition_index keyword in
  let opportunityScore := opportunityScore keyword metrics trend in
  let reason := generateReason keyword metrics trend in
  let revenueTier :=
    categorizeRevenueTier opportunityScore searchVolume competitionIndex in
  {| OpportunityScore.keyword := Keyword.keyword keyword;
     OpportunityScore.opportunity_score :=
       Z.min 100 (Z.max 0 opportunityScore);
     OpportunityScore.search_volume := searchVolume;
     OpportunityScore.competition_index := competitionIndex;
     OpportunityScore.category := Keyword.category keyword;
     OpportunityScore.reason := reason;
     OpportunityScore.potential_revenue_tier := revenueTier |}.

(** [calculateSEOScore]. *)
Definition calculateSEOScore (keyword : Keyword.t)
    (metrics : option KeywordMetrics.t) : Z :=
  let baseScore :=
    Math.min (inject_Z (Keyword.search_volume keyword) / 20) 50 in
  let competitiveScore :=
    (100 - inject_Z (Keyword.competition_index keyword)) * 0.3 in
  let conversionScore :=
    match metrics with
    | Some m => KeywordMetrics.conversion_potential m
    | None => 50
    end * 0.2 in
  Math.round (baseScore + competitiveScore + conversionScore).

(** [calculateTrendVelocity]. *)
Definition calculateTrendVelocity (growthSevenDay growthThirtyDay : Q) : Q :=
  if Qgtb growthSevenDay growthThirtyDay then
    Math.min 100 ((growthSevenDay - growthThirtyDay) * 2)
  else
    Math.max (-100) ((growthSevenDay - growthThirtyDay) * 2).

End ScoringEngine.

(* ================================================================== *)
(** * The database client ([db/client.ts])

[supabase] is a module-level constant of the sources; here it is a
parameter of every method of the analyzer.  A query resolves to a pair
[{ data, error }] and never rejects; each field of [Client] stands for
one query chain of [keyword-analyzer.ts] and returns what the database
answers to it. *)

Module Supabase.

Record PostgrestError : Type := mkError {
  message : string;
  code : string
}.

Record Response (T : Type) : Type := mkResponse {
  data : option T;
  error : option PostgrestError
}.
Arguments mkResponse {T} _ _.
Arguments data {T} _.
Arguments error {T} _.

Record Client : Type := mkClient {
  (** [from('keywords').select('*').gte('search_volume', v)
        .lte('competition_index', c)
        .order('search_volume', {ascending: false}).limit(100)] *)
  keywords_candidates : Z -> Z -> Response (list Keyword.t);
  (** [from('keyword_metrics').select('*').eq('keyword_id', id)
        .order('recorded_at', {ascending: false}).limit(1).maybeSingle()] *)
  keyword_metrics_latest : string -> Response KeywordMetrics.t;
  (** [from('trend_analysis').select('*').eq('keyword_id', id)
        .order('analyzed_at', {ascending: false}).limit(1).maybeSingle()] *)
  trend_analysis_latest : string -> Response TrendAnalysis.t;
  (** [from('keywords').select('competition_index').eq('category', c)],
      each row given by its only column *)
  keywords_competition_index : string -> Response (list Z)
}.

(** The interpolation of [error?.message] in a template literal. *)
Definition message_of (e : option PostgrestError) : string :=
  match e with
  | Some err => message err
  | None => "undefined"
  end.

End Supabase.

(** The outcome of an [async] method: the value it resolves to, or the
    message of the [Error] it throws. *)
Inductive Promise (A : Type) : Type :=
| Resolved (value : A)
| Rejected (message : string).
Arguments Resolved {A} _.
Arguments Rejected {A} _.

(* ================================================================== *)
(** * [KeywordAnalyzer] ([services/keyword-analyzer.ts]) *)

Module CompetitionAnalysis.
Record t : Type := mk {
  low_competition : Z;
  medium_competition : Z;
  high_competition : Z;
  average : JsNumber;
  (** [None] is [undefined] *)
  median : option Z
}.
End CompetitionAnalysis.

Module KeywordAnalyzer.

Open Scope string_scope.
Open Scope Z_scope.

Section WithClient.
Variable supabase : Supabase.Client.

(** What one turn of the [for] loop of [findOpportunities] pushes. *)
Definition scoreCandidate (keyword : Keyword.t) : OpportunityScore.t :=
  let metrics :=
    Supabase.data
      (Supabase.keyword_metrics_latest supabase (Keyword.id keyword)) in
  let trend :=
    Supabase.data
      (Supabase.trend_analysis_latest supabase (Keyword.id keyword)) in
  ScoringEngine.calculateOpportunityScore keyword metrics trend.

(** [findOpportunities]; the defaults of its two parameters (100 and 50)
    are left to the caller. *)
Definition findOpportunities (minSearchVolume maxCompetitionIndex : Z)
  : Promise (list OpportunityScore.t) :=
  let response :=
    Supabase.keywords_candidates supabase
      minSearchVolume maxCompetitionIndex in
  match Supabase.error response, Supabase.data response with
  | None, Some keywords =>
      let opportunities :=
        fold_left
          (fun opportunities keyword =>
             JsArray.push opportunities (scoreCandidate keyword))
          keywords [] in
      Resolved
        (JsArray.sort
           (fun a b => OpportunityScore.opportunity_score b
                       - OpportunityScore.opportunity_score a)
           opportunities)
  | keywordError, _ =>
      Rejected ("Failed to fetch keywords: "
                  ++ Supabase.message_of keywordError)
  end.

(** [getCompetitionAnalysis]. *)
Definition getCompetitionAnalysis (category : string)
  : Promise CompetitionAnalysis.t :=
  let response := Supabase.keywords_competition_index supabase category in
  match Supabase.error response, Supabase.data response with
  | None, Some data =>
      let indices := JsArray.sort (fun a b => a - b) data in
      let len := Z.of_nat (List.length indices) in
      Resolved
        {| CompetitionAnalysis.low_competition :=
             Z.of_nat (List.length (filter (fun i => i <? 33) indices));
           CompetitionAnalysis.medium_competition :=
             Z.of_nat (List.length
               (filter (fun i => (33 <=? i) && (i <? 66)) indices));
           CompetitionAnalysis.high_competition :=
             Z.of_nat (List.length (filter (fun i => 66 <=? i) indices));
           CompetitionAnalysis.average :=
             js_round
               (js_div (inject_Z (fold_left Z.add indices 0))
                       (inject_Z len));
           CompetitionAnalysis.median :=
             JsArray.get indices
               (Math.floor (inject_Z len / 2)%Q) |}
  | error, _ =>
      Rejected ("Failed to analyze competition: "
                  ++ Supabase.message_of error)
  end.

End WithClient.

End KeywordAnalyzer.

(* ================================================================== *)
(** * Sample inputs *)

Definition sample_keyword (id : string) (sv ci : Z) (st : TrendStatus)
  : Keyword.t :=
  Keyword.mk id "mojo dojo house" sv ci "barbie-core" st
    "2026-01-14" "2026-01-14".

Definition no_row {T : Type} : Supabase.Response T :=
  Supabase.mkResponse None None.

Definition failed {T : Type} (msg : string) : Supabase.Response T :=
  Supabase.mkResponse None (Some (Supabase.mkError msg "500")).

(** A database holding the competition indices [ixs] for every category
    and the keywords [kws], none of which has metrics or a trend. *)
Definition client_with (kws : list Keyword.t) (ixs : list Z)
  : Supabase.Client :=
  Supabase.mkClient
    (fun _ _ => Supabase.mkResponse (Some kws) None)
    (fun _ => no_row)
    (fun _ => no_row)
    (fun _ => Supabase.mkResponse (Some ixs) None).

(** The same database when the two per-keyword reads fail. *)
Definition client_failing_reads (kws : list Keyword.t) : Supabase.Client :=
  Supabase.mkClient
    (fun _ _ => Supabase.mkResponse (Some kws) None)
    (fun _ => failed "connection reset")
    (fun _ => failed "connection reset")
    (fun _ => Supabase.mkResponse (Some []) None).

(* ================================================================== *)
(** * Ranges of the data model

The ranges the schema enforces with [CHECK] constraints and the importer
with its clamps. *)

Definition valid_keyword (k : Keyword.t) : Prop :=
  (0 <= Keyword.search_volume k)%Z
  /\ (0 <= Keyword.competition_index k <= 100)%Z.

Definition saturation_in_range (m : KeywordMetrics.t) : Prop :=
  0 <= KeywordMetrics.niche_saturation m <= 100.

Definition conversion_in_range (m : KeywordMetrics.t) : Prop :=
  0 <= KeywordMetrics.conversion_potential m <= 100.

Definition velocity_in_range (tr : TrendAnalysis.t) : Prop :=
  -100 <= TrendAnalysis.velocity_score tr <= 100.

(** A property of a snapshot that may be absent. *)
Definition if_present {T : Type} (P : T -> Prop) (o : option T) : Prop :=
  match o with
  | Some x => P x
  | None => True
  end.

(** The tiers from the lowest to the highest. *)
Definition tier_rank (t : RevenueTier) : nat :=
  match t with
  | low => 0
  | medium => 1
  | high => 2
  | very_high => 3
  end.

Definition tier_le (t u : RevenueTier) : Prop :=
  (tier_rank t <= tier_rank u)%nat.

Definition sample_metrics (conversion saturation intent : Q)
  : KeywordMetrics.t :=
  KeywordMetrics.mk "m1" "k1" 450 conversion saturation intent "2026-01-14".

Definition sample_trend (velocity : Q) : TrendAnalysis.t :=
  TrendAnalysis.mk "t1" "k1" velocity "stable" (Some 8%Z) 12 8 "2026-01-14".

(** The values the engine reads off a snapshot that may be absent:
    [trend?.velocity_score ?? 0], [metrics?.niche_saturation ?? 50] and
    [metrics?.conversion_potential ?? 50]. *)
Definition velocity_or_default (trend : option TrendAnalysis.t) : Q :=
  match trend with
  | Some tr => TrendAnalysis.velocity_score tr
  | None => 0
  end.

Definition saturation_or_default (metrics : option KeywordMetrics.t) : Q :=
  match metrics with
  | Some m => KeywordMetrics.niche_saturation m
  | None => 50
  end.

Definition conversion_or_default (metrics : option KeywordMetrics.t) : Q :=
  match metrics with
  | Some m => KeywordMetrics.conversion_potential m
  | None => 50
  end.

(* ================================================================== *)
(** * More built-ins

    Strings are sequences of ASCII characters in the model:
    [toLowerCase] acts on the letters A to Z, [trim] removes the blanks
    of ASCII (space, tab, line feed, vertical tab, form feed, carriage
    return). *)

Definition is_upper (c : ascii) : bool :=
  ((65 <=? nat_of_ascii c) && (nat_of_ascii c <=? 90))%nat.

Definition ascii_toLowerCase (c : ascii) : ascii :=
  if is_upper c then ascii_of_nat (nat_of_ascii c + 32) else c.

Fixpoint String_toLowerCase (s : string) : string :=
  match s with
  | EmptyString => EmptyString
  | String c s' => String (ascii_toLowerCase c) (String_toLowerCase s')
  end.

Definition is_space (c : ascii) : bool :=
  ((nat_of_ascii c =? 32)
   || ((9 <=? nat_of_ascii c) && (nat_of_ascii c <=? 13)))%nat.

Fixpoint String_trimStart (s : string) : string :=
  match s with
  | EmptyString => EmptyString
  | String c s' => if is_space c then String_trimStart s' else s
  end.

Fixpoint String_trimEnd (s : string) : string :=
  match s with
  | EmptyString => EmptyString
  | String c s' =>
      match String_trimEnd s' with
      | EmptyString => if is_space c then EmptyString
                       else String c EmptyString
      | r => String c r
      end
  end.

Definition String_trim (s : string) : string :=
  String_trimEnd (String_trimStart s).

(** [s.includes(sub)]. *)
Fixpoint String_includes (s sub : string) : bool :=
  String.prefix sub s
  || match s with
     | EmptyString => false
     | String _ s' => String_includes s' sub
     end.

(** A [Map<number, number>]: the entries in the order of their first
    insertion; [set] on a key that is present replaces the value in
    place. *)
Module JsMap.

Definition t : Type := list (Z * Z).

Fixpoint get (m : t) (k : Z) : option Z :=
  match m with
  | [] => None
  | (k', v) :: m' => if (k' =? k)%Z then Some v else get m' k
  end.

Fixpoint set (m : t) (k v : Z) : t :=
  match m with
  | [] => [(k, v)]
  | (k', v') :: m' =>
      if (k' =? k)%Z then (k, v) :: m' else (k', v') :: set m' k v
  end.

Definition entries (m : t) : list (Z * Z) := m.

End JsMap.

(* ================================================================== *)
(** * More of the data model *)

Inductive RelationshipType : Type :=
| cross_appeal | trend_combo | seasonal_combo.

Module KeywordRelationship.
Record t : Type := mk {
  id : string;
  keyword_id : string;
  related_keyword_id : string;
  correlation_strength : Q;
  relationship_type : RelationshipType
}.
End KeywordRelationship.

Module TrendingKeyword.
Record t : Type := mk {
  keyword : string;
  search_volume : Z;
  competition_index : Z;
  trend_status : string;
  velocity_score : Q;
  category : string
}.
End TrendingKeyword.

(** A row of the select of [getTrendingKeywords]; [trend_analysis] is the
    embedded array of the trend rows of the keyword, each given by its
    [velocity_score] ([None] for null). *)
Module TrendingRow.
Record t : Type := mk {
  id : string;
  keyword : string;
  search_volume : Z;
  competition_index : Z;
  trend_status : string;
  category : string;
  trend_analysis : option (list (option Q))
}.
End TrendingRow.

Module RelationshipRow.
Record t : Type := mk {
  related_keyword_id : string
}.
End RelationshipRow.

(** An element of the result of [getSeasonalTrends]; [month] is [None]
    when [monthNames[month - 1]] is undefined. *)
Module SeasonalTrend.
Record t : Type := mk {
  month : option string;
  peak_keywords_count : Z
}.
End SeasonalTrend.

(** [KeywordInput] of [data-importer.ts], and the object that
    [importKeywords] builds from it. *)
Module KeywordInput.
Record t : Type := mk {
  keyword : string;
  search_volume : Q;
  competition_index : Q;
  category : string;
  trend_status : option TrendStatus
}.
End KeywordInput.

Module SanitizedKeyword.
Record t : Type := mk {
  keyword : string;
  search_volume : Q;
  competition_index : Q;
  category : string;
  trend_status : TrendStatus
}.
End SanitizedKeyword.

Module RelationshipInsert.
Record t : Type := mk {
  keyword_id : string;
  related_keyword_id : string;
  correlation_strength : Q;
  relationship_type : RelationshipType
}.
End RelationshipInsert.

(* ================================================================== *)
(** * The other queries of the sources

    As for [Supabase.Client]: one field for each query chain, answering
    what the database answers. *)

Module Queries.
Record t : Type := mk {
  (** [from('keywords').select(`id, keyword, ..., trend_analysis(velocity_score)`)
        .eq('trend_status', 'rising')
        .order('search_volume', {ascending: false}).limit(limit)],
      followed by [.eq('category', c)] when the first argument is [Some c] *)
  keywords_rising :
    option string -> Z -> Supabase.Response (list TrendingRow.t);
  (** [from('keywords').select('*').eq('category', c)
        .order('search_volume', {ascending: false})] *)
  keywords_of_category : string -> Supabase.Response (list Keyword.t);
  (** [from('keyword_relationships').select('related_keyword_id')
        .eq('keyword_id', id)] *)
  relationships_of : string -> Supabase.Response (list RelationshipRow.t);
  (** [from('keywords').select('*').in('id', ids)] *)
  keywords_in : list string -> Supabase.Response (list Keyword.t);
  (** [from('keywords').select('*').ilike('keyword', pattern).limit(1)
        .maybeSingle()] *)
  keywords_ilike : string -> Supabase.Response Keyword.t;
  (** [from('trend_analysis').select('peak_month, keywords(category)')
        .eq('keywords.category', c)], each row given by its [peak_month] *)
  trend_peak_months : string -> Supabase.Response (list (option Z));
  (** [from('keywords').upsert(rows, {onConflict: 'keyword'}).select()] *)
  keywords_upsert :
    list SanitizedKeyword.t -> Supabase.Response (list Keyword.t);
  (** [from('keyword_relationships').insert(row).select()] *)
  relationships_insert :
    RelationshipInsert.t -> Supabase.Response (list KeywordRelationship.t)
}.
End Queries.

(* ================================================================== *)
(** * The other methods of [KeywordAnalyzer] *)

Module KeywordAnalyzerQueries.

Open Scope string_scope.
Open Scope Z_scope.

Section WithQueries.
Variable supabase : Queries.t.

(** [getTrendingKeywords]; [category] is [None] for [undefined], and the
    default of [limit] (50) is left to the caller. *)
Definition getTrendingKeywords (category : option string) (limit : Z)
  : Promise (list TrendingKeyword.t) :=
  let filter :=
    match category with
    | Some c => if (c =? "")%string then None else Some c
    | None => None
    end in
  let response := Queries.keywords_rising supabase filter limit in
  match Supabase.error response, Supabase.data response with
  | None, Some data =>
      Resolved
        (map
           (fun item =>
              {| TrendingKeyword.keyword := TrendingRow.keyword item;
                 TrendingKeyword.search_volume :=
                   TrendingRow.search_volume item;
                 TrendingKeyword.competition_index :=
                   TrendingRow.competition_index item;
                 TrendingKeyword.trend_status :=
                   TrendingRow.trend_status item;
                 TrendingKeyword.velocity_score :=
                   match TrendingRow.trend_analysis item with
                   | Some (Some velocity_score :: _) => velocity_score
                   | _ => 0%Q
                   end;
                 TrendingKeyword.category := TrendingRow.category item |})
           data)
  | error, _ =>
      Rejected ("Failed to fetch trending keywords: "
                  ++ Supabase.message_of error)
  end.

(** [getKeywordsByCategory]. *)
Definition getKeywordsByCategory (category : string)
  : Promise (list Keyword.t) :=
  let response := Queries.keywords_of_category supabase category in
  match Supabase.error response, Supabase.data response with
  | None, Some data => Resolved data
  | error, _ =>
      Rejected ("Failed to fetch keywords for category: "
                  ++ Supabase.message_of error)
  end.

(** [getRelatedKeywords]. *)
Definition getRelatedKeywords (keywordId : string)
  : Promise (list Keyword.t) :=
  let response := Queries.relationships_of supabase keywordId in
  match Supabase.error response, Supabase.data response with
  | None, Some relationships =>
      let relatedIds :=
        map RelationshipRow.related_keyword_id relationships in
      if (List.length relatedIds =? 0)%nat then Resolved []
      else
        let response := Queries.keywords_in supabase relatedIds in
        match Supabase.error response, Supabase.data response with
        | None, Some keywords => Resolved keywords
        | keyError, _ =>
            Rejected ("Failed to fetch related keywords: "
                        ++ Supabase.message_of keyError)
        end
  | relError, _ =>
      Rejected ("Failed to fetch relationships: "
                  ++ Supabase.message_of relError)
  end.

(** [searchKeyword]; the result is [None] for [null]. *)
Definition searchKeyword (keyword : string) : Promise (option Keyword.t) :=
  let response :=
    Queries.keywords_ilike supabase ("%" ++ keyword ++ "%") in
  match Supabase.error response with
  | Some error =>
      if negb (Supabase.code error =? "PGRST116")%string then
        Rejected ("Search failed: " ++ Supabase.message error)
      else Resolved (Supabase.data response)
  | None => Resolved (Supabase.data response)
  end.

Definition monthNames : list string :=
  [ "January"; "February"; "March"; "April"; "May"; "June";
    "July"; "August"; "September"; "October"; "November"; "December" ].

(** One turn of the [forEach] of [getSeasonalTrends]: a row counts when
    its [peak_month] is truthy, that is neither null nor 0. *)
Definition count_step (monthCounts : JsMap.t) (item : option Z) : JsMap.t :=
  match item with
  | Some peak_month =>
      if peak_month =? 0 then monthCounts
      else
        JsMap.set monthCounts peak_month
          (match JsMap.get monthCounts peak_month with
           | Some count => count
           | None => 0
           end + 1)
  | None => monthCounts
  end.

(** The [Map] that the [forEach] fills. *)
Definition countPeakMonths (data : list (option Z)) : JsMap.t :=
  fold_left count_step data [].

(** [getSeasonalTrends]. *)
Definition getSeasonalTrends (category : string)
  : Promise (list SeasonalTrend.t) :=
  let response := Queries.trend_peak_months supabase category in
  match Supabase.error response, Supabase.data response with
  | None, Some data =>
      let monthCounts := countPeakMonths data in
      Resolved
        (map
           (fun '(month, count) =>
              {| SeasonalTrend.month := JsArray.get monthNames (month - 1);
                 SeasonalTrend.peak_keywords_count := count |})
           (JsMap.entries monthCounts))
  | error, _ =>
      Rejected ("Failed to fetch seasonal data: "
                  ++ Supabase.message_of error)
  end.

End WithQueries.

End KeywordAnalyzerQueries.

(* ================================================================== *)
(** * [DataImporter] ([services/data-importer.ts]) *)

Module DataImporter.

Open Scope string_scope.

(** The object that [importKeywords] maps each input to. *)
Definition sanitize (k : KeywordInput.t) : SanitizedKeyword.t :=
  {| SanitizedKeyword.keyword :=
       String_trim (String_toLowerCase (KeywordInput.keyword k));
     SanitizedKeyword.search_volume :=
       Math.max 0 (KeywordInput.search_volume k);
     SanitizedKeyword.competition_index :=
       Math.max 0 (Math.min 100 (KeywordInput.competition_index k));
     SanitizedKeyword.category :=
       String_trim (String_toLowerCase (KeywordInput.category k));
     SanitizedKeyword.trend_status :=
       match KeywordInput.trend_status k with
       | Some status => status
       | None => stable
       end |}.

Section WithQueries.
Variable supabase : Queries.t.

(** [importKeywords]. *)
Definition importKeywords (keywords : list KeywordInput.t)
  : Promise (list Keyword.t) :=
  let sanitized := map sanitize keywords in
  let response := Queries.keywords_upsert supabase sanitized in
  match Supabase.error response with
  | Some error => Rejected ("Import failed: " ++ Supabase.message error)
  | None =>
      Resolved
        (match Supabase.data response with
         | Some data => data
         | None => []
         end)
  end.

(** [addKeywordRelationship]; the result is [None] for a null [data]. *)
Definition addKeywordRelationship (keywordId relatedKeywordId : string)
    (correlationStrength : Q) (relationshipType : RelationshipType)
  : Promise (option (list KeywordRelationship.t)) :=
  let response :=
    Queries.relationships_insert supabase
      {| RelationshipInsert.keyword_id := keywordId;
         RelationshipInsert.related_keyword_id := relatedKeywordId;
         RelationshipInsert.correlation_strength :=
           Math.max 0 (Math.min 100 correlationStrength);
         RelationshipInsert.relationship_type := relationshipType |} in
  match Supabase.error response with
  | Some error =>
      if negb (String_includes (Supabase.message error) "duplicate") then
        Rejected ("Failed to add relationship: " ++ Supabase.message error)
      else Resolved (Supabase.data response)
  | None => Resolved (Supabase.data response)
  end.

End WithQueries.

End DataImporter.

(** The input that carries the fields of a sanitized keyword. *)
Definition as_input (k : SanitizedKeyword.t) : KeywordInput.t :=
  {| KeywordInput.keyword := SanitizedKeyword.keyword k;
     KeywordInput.search_volume := SanitizedKeyword.search_volume k;
     KeywordInput.competition_index := SanitizedKeyword.competition_index k;
     KeywordInput.category := SanitizedKeyword.category k;
     KeywordInput.trend_status := Some (SanitizedKeyword.trend_status k) |}.

(** The number of rows whose peak month is [m]. *)
Definition rows_peaking_in (m : Z) (rows : list (option Z)) : Z :=
  Z.of_nat
    (List.length
       (filter (fun item => match item with
                            | Some p => (p =? m)%Z
                            | None => false
                            end) rows)).

(** The truthy peak months of the rows, in the order of the rows. *)
Definition truthy_months (rows : list (option Z)) : list Z :=
  flat_map (fun item => match item with
                        | Some p => if (p =? 0)%Z then [] else [p]
                        | None => []
                        end) rows.

(** The distinct elements of a list, each at its first occurrence. *)
Fixpoint first_occurrences (l : list Z) : list Z :=
  match l with
  | [] => []
  | x :: l' =>
      x :: filter (fun y => negb (y =? x)%Z) (first_occurrences l')
  end.

(** A database for the other queries: [rising] are the rising keywords,
    [peaks] the peak months of the trend rows, and [related] answers the
    second read of [getRelatedKeywords]; nothing is related to anything and
    no search finds a row. *)
Definition queries_with (rising : list TrendingRow.t)
    (peaks : list (option Z))
    (related : Supabase.Response (list Keyword.t)) : Queries.t :=
  Queries.mk
    (fun _ _ => Supabase.mkResponse (Some rising) None)
    (fun _ => Supabase.mkResponse (Some []) None)
    (fun _ => Supabase.mkResponse (Some []) None)
    (fun _ => related)
    (fun _ => Supabase.mkResponse None
                (Some (Supabase.mkError "no rows" "PGRST116")))
    (fun _ => Supabase.mkResponse (Some peaks) None)
    (fun _ => Supabase.mkResponse None None)
    (fun _ => Supabase.mkResponse None
                (Some (Supabase.mkError
                         "duplicate key value violates unique constraint"
                         "23505"))).


(* ================================================================== *)
(** * [calculateSEOScore] on doubles

    The numbers of JavaScript are the doubles of IEEE 754; [float] is that
    type, with the correctly rounded operations of the kernel. *)

Module Binary64.

(** The exact value of a double. *)
Definition value (x : float) : JsNumber :=
  match Prim2SF x with
  | S754_zero _ => Finite 0
  | S754_infinity negative => Infinity negative
  | S754_nan => NaN
  | S754_finite negative m e =>
      Finite (inject_Z (if negative then Zneg m else Zpos m) * 2 ^ e)
  end.

(** The double of an integer (exact below 2^53 in absolute value, which
    covers the [integer] columns). *)
Definition of_Z (z : Z) : float :=
  if (z <? 0)%Z then (- of_uint63 (Uint63.of_Z (- z)))%float
  else of_uint63 (Uint63.of_Z z).

(** [Math.min(a, b)]: NaN when an argument is NaN, and -0 below +0. *)
Definition Math_min (a b : float) : float :=
  if is_nan a then a
  else if is_nan b then b
  else if (a <? b)%float then a
  else if (b <? a)%float then b
  else if get_sign a then a else b.

(** [Math.round(x)]: the rounding, a tie going towards +Infinity, of the
    exact value of [x]; NaN and the infinities are returned as they are. *)
Definition Math_round (x : float) : JsNumber := js_round (value x).

(** [calculateSEOScore], given the three numbers it reads:
    [keyword.search_volume], [keyword.competition_index] and
    [metrics?.conversion_potential] ([None] when it is undefined). *)
#[warnings="-inexact-float"]
Definition calculateSEOScore (search_volume competition_index : float)
    (conversion_potential : option float) : JsNumber :=
  let baseScore := Math_min (search_volume / 20) 50 in
  let competitiveScore := ((100 - competition_index) * 0.3)%float in
  let conversionScore :=
    (match conversion_potential with
     | Some c => c
     | None => 50%float
     end * 0.2)%float in
  Math_round (baseScore + competitiveScore + conversionScore)%float.


End Binary64.

(** Whether, for a keyword without metrics, the double that
    [Binary64.calculateSEOScore] returns is the integer of the exact model
    or that integer less one. *)
Definition binary64_tracks_exact (search_volume competition_index : Z)
  : bool :=
  match
    Binary64.calculateSEOScore (Binary64.of_Z search_volume)
      (Binary64.of_Z competition_index) None
  with
  | Finite q =>
      let exact :=
        ScoringEngine.calculateSEOScore
          (Keyword.mk "" "" search_volume competition_index "" stable "" "")
          None in
      Qeq_bool q (inject_Z exact) || Qeq_bool q (inject_Z (exact - 1))
  | _ => false
  end.

(* ================================================================== *)
(** * Facts about the built-ins *)

Lemma Qltb_lt (a b : Q) : Qltb a b = true <-> a < b.
Proof.
  unfold Qltb. rewrite negb_true_iff, <- not_true_iff_false, Qle_bool_iff.
  split; [apply Qnot_le_lt | apply Qlt_not_le].
Qed.

Lemma Qltb_ge (a b : Q) : Qltb a b = false <-> b <= a.
Proof.
  unfold Qltb. rewrite negb_false_iff. apply Qle_bool_iff.
Qed.

Lemma Math_min_spec (a b : Q) :
  (a <= b /\ Math.min a b = a) \/ (b < a /\ Math.min a b = b).
Proof.
  unfold Math.min. destruct (Qle_bool a b) eqn:E.
  - left. split; [now apply Qle_bool_iff | reflexivity].
  - right. split; [|reflexivity].
    apply Qnot_le_lt. intro H. apply Qle_bool_iff in H. congruence.
Qed.

Lemma Math_max_spec (a b : Q) :
  (a <= b /\ Math.max a b = b) \/ (b < a /\ Math.max a b = a).
Proof.
  unfold Math.max. destruct (Qle_bool a b) eqn:E.
  - left. split; [now apply Qle_bool_iff | reflexivity].
  - right. split; [|reflexivity].
    apply Qnot_le_lt. intro H. apply Qle_bool_iff in H. congruence.
Qed.

Lemma Math_min_Qmin (a b : Q) : Math.min a b == Qmin a b.
Proof.
  destruct (Math_min_spec a b) as [[H ->] | [H ->]].
  - symmetry. now apply Q.min_l.
  - symmetry. apply Q.min_r. now apply Qlt_le_weak.
Qed.

Lemma Math_max_Qmax (a b : Q) : Math.max a b == Qmax a b.
Proof.
  destruct (Math_max_spec a b) as [[H ->] | [H ->]].
  - symmetry. now apply Q.max_r.
  - symmetry. apply Q.max_l. now apply Qlt_le_weak.
Qed.

(** [Math.round x <= n] as soon as [x < n + 1/2]. *)
Lemma Math_round_upper (x : Q) (n : Z) :
  x < inject_Z n + (1 # 2) -> (Math.round x <= n)%Z.
Proof.
  intros H. unfold Math.round.
  assert (Hf := Qfloor_le (x + (1 # 2))).
  assert (Hlt : inject_Z (Qfloor (x + (1 # 2))) < inject_Z (n + 1)).
  { rewrite inject_Z_plus. change (inject_Z 1) with 1. lra. }
  rewrite <- Zlt_Qlt in Hlt. lia.
Qed.

(** [n <= Math.round x] as soon as [n - 1/2 <= x]. *)
Lemma Math_round_lower (x : Q) (n : Z) :
  inject_Z n - (1 # 2) <= x -> (n <= Math.round x)%Z.
Proof.
  intros H. unfold Math.round.
  rewrite <- (Qfloor_Z n). apply Qfloor_resp_le. lra.
Qed.

(** On integers [Math.min] and [Math.max] are [Z.min] and [Z.max], which is
    how the clamp of [calculateOpportunityScore] is written. *)
Lemma Math_min_inject_Z (a b : Z) :
  Math.min (inject_Z a) (inject_Z b) = inject_Z (Z.min a b).
Proof.
  destruct (Math_min_spec (inject_Z a) (inject_Z b)) as [[H ->] | [H ->]].
  - rewrite <- Zle_Qle in H. now rewrite Z.min_l.
  - rewrite <- Zlt_Qlt in H. rewrite Z.min_r; [reflexivity | lia].
Qed.

Lemma Math_max_inject_Z (a b : Z) :
  Math.max (inject_Z a) (inject_Z b) = inject_Z (Z.max a b).
Proof.
  destruct (Math_max_spec (inject_Z a) (inject_Z b)) as [[H ->] | [H ->]].
  - rewrite <- Zle_Qle in H. now rewrite Z.max_r.
  - rewrite <- Zlt_Qlt in H. rewrite Z.max_l; [reflexivity | lia].
Qed.

Lemma inject_Z_nonneg (z : Z) : (0 <= z)%Z -> 0 <= inject_Z z.
Proof. intros H. change 0 with (inject_Z 0). now rewrite <- Zle_Qle. Qed.

Lemma inject_Z_le_100 (z : Z) : (z <= 100)%Z -> inject_Z z <= 100.
Proof. intros H. change 100 with (inject_Z 100). now rewrite <- Zle_Qle. Qed.

(* ================================================================== *)
(** * The scoring engine *)

(** The weighted sum, before rounding, stays within [0, 110/1.7] on the
    ranges of the data model. *)
Lemma weighted_sum_bounds (sv ci v ns : Q) :
  0 <= sv -> 0 <= ci <= 100 -> -100 <= v <= 100 -> 0 <= ns <= 100 ->
  let raw :=
    (Math.min (sv / 100) 100 * 0.2 + (100 - ci) * 0.4
     + Math.max 0 v * 0.3 + (100 - ns) * 0.2) / 1.7 in
  0 <= raw /\ raw <= 1100 # 17.
Proof.
  intros Hsv Hci Hv Hns raw. subst raw.
  destruct (Math_min_spec (sv / 100) 100) as [[Hm ->] | [Hm ->]];
    destruct (Math_max_spec 0 v) as [[Hx ->] | [Hx ->]];
    unfold Qdiv in *;
    change (/ 1.7) with (10 # 17); change (/ 100) with (1 # 100) in *;
    split; lra.
Qed.

Lemma opportunityScore_bounds keyword metrics trend :
  valid_keyword keyword ->
  if_present saturation_in_range metrics ->
  if_present velocity_in_range trend ->
  (0 <= ScoringEngine.opportunityScore keyword metrics trend <= 65)%Z.
Proof.
  intros [Hsv [Hci0 Hci1]] Hm Ht.
  unfold ScoringEngine.opportunityScore.
  set (v := match trend with
            | Some tr => TrendAnalysis.velocity_score tr | None => 0 end).
  set (ns := match metrics with
             | Some m => KeywordMetrics.niche_saturation m | None => 50 end).
  assert (Hv : -100 <= v <= 100).
  { subst v. destruct trend; [exact Ht | lra]. }
  assert (Hns : 0 <= ns <= 100).
  { subst ns. destruct metrics; [exact Hm | lra]. }
  destruct (weighted_sum_bounds
              (inject_Z (Keyword.search_volume keyword))
              (inject_Z (Keyword.competition_index keyword)) v ns)
    as [Hlo Hhi]; auto using inject_Z_nonneg, inject_Z_le_100.
  cbv zeta in Hlo, Hhi. split.
  - apply Math_round_lower. change (inject_Z 0) with 0. lra.
  - apply Math_round_upper. change (inject_Z 65) with 65. lra.
Qed.

(** C1.  For every keyword record with a non-negative search volume and a
    competition index in [0,100], every metrics snapshot (present or
    absent) with niche_saturation in [0,100] and every trend snapshot
    (present or absent) with velocity_score in [-100,100], the
    opportunity_score of the record that calculateOpportunityScore returns
    is an integer between 0 and 100. *)
Theorem opportunity_score_in_0_100 :
  forall keyword metrics trend,
    valid_keyword keyword ->
    if_present saturation_in_range metrics ->
    if_present velocity_in_range trend ->
    (0 <= OpportunityScore.opportunity_score
            (ScoringEngine.calculateOpportunityScore keyword metrics trend)
       <= 100)%Z.
Proof.
  intros keyword metrics trend _ _ _.
  unfold ScoringEngine.calculateOpportunityScore. cbn [OpportunityScore.opportunity_score].
  lia.
Qed.

Lemma opportunity_score_in_0_100_witness :
  valid_keyword (sample_keyword "k1" 1340 25 peak)
  /\ if_present saturation_in_range (Some (sample_metrics 75 35 82))
  /\ if_present velocity_in_range (Some (sample_trend 65))
  /\ (0 <= OpportunityScore.opportunity_score
             (ScoringEngine.calculateOpportunityScore
                (sample_keyword "k1" 1340 25 peak)
                (Some (sample_metrics 75 35 82))
                (Some (sample_trend 65)))
        <= 100)%Z.
Proof.
  assert (Hk : valid_keyword (sample_keyword "k1" 1340 25 peak))
    by (unfold valid_keyword; simpl; lia).
  assert (Hm : if_present saturation_in_range (Some (sample_metrics 75 35 82)))
    by (simpl; unfold saturation_in_range; simpl; split; discriminate).
  assert (Ht : if_present velocity_in_range (Some (sample_trend 65)))
    by (simpl; unfold velocity_in_range; simpl; split; discriminate).
  split; [exact Hk | split; [exact Hm | split; [exact Ht |]]].
  exact (opportunity_score_in_0_100 _ _ _ Hk Hm Ht).
Defined.

(** Inside the ranges the clamp of [calculateOpportunityScore] changes
    nothing: the returned score is the rounded weighted sum itself. *)
Lemma opportunity_score_unclamped keyword metrics trend :
  valid_keyword keyword ->
  if_present saturation_in_range metrics ->
  if_present velocity_in_range trend ->
  OpportunityScore.opportunity_score
    (ScoringEngine.calculateOpportunityScore keyword metrics trend)
  = ScoringEngine.opportunityScore keyword metrics trend.
Proof.
  intros Hk Hm Ht.
  pose proof (opportunityScore_bounds keyword metrics trend Hk Hm Ht).
  unfold ScoringEngine.calculateOpportunityScore.
  cbn [OpportunityScore.opportunity_score]. lia.
Qed.

(** C2, as the specification states it, fails: for search_volume = 600,
    competition_index = 20, trend_status = peak and no snapshots, the
    reason is not the string that ends in a full stop. *)
Lemma reason_600_20_peak_has_no_final_stop :
  OpportunityScore.reason
    (ScoringEngine.calculateOpportunityScore
       (sample_keyword "k1" 600 20 peak) None None)
  <> "High search volume (600 searches). Low competition. Currently at peak popularity."%string.
Proof.
  apply String.eqb_neq. vm_compute. reflexivity.
Qed.

(** C2, amended.  For a keyword record with search_volume = 600,
    competition_index = 20 and trend_status = peak, with no trend and no
    metrics snapshot, the reason returned by calculateOpportunityScore is
    the three phrases joined by ". ", with nothing after the last one. *)
Theorem reason_600_20_peak :
  forall id keyword category created_at updated_at,
    OpportunityScore.reason
      (ScoringEngine.calculateOpportunityScore
         (Keyword.mk id keyword 600 20 category peak created_at updated_at)
         None None)
    = "High search volume (600 searches). Low competition. Currently at peak popularity"%string.
Proof.
  intros. reflexivity.
Qed.

(** The fallback of [generateReason]: a stable keyword of middling volume
    and competition, without snapshots, gets the literal fallback. *)
Example reason_fallback :
  ScoringEngine.generateReason (sample_keyword "k1" 300 55 stable) None None
  = "Moderate opportunity"%string.
Proof. reflexivity. Qed.



(** C6.  calculateTrendVelocity returns min(100, (growth7d - growth30d) * 2)
    when growth7d > growth30d and max(-100, (growth7d - growth30d) * 2)
    otherwise: the cap is only on the accelerating branch, the floor only on
    the other one.  So (10, 5) gives 10, (5, 10) gives -10 and (60, 0)
    gives 100, not 120. *)
Theorem trend_velocity_branches :
  (forall growth7d growth30d,
      growth30d < growth7d ->
      ScoringEngine.calculateTrendVelocity growth7d growth30d
      == Qmin 100 ((growth7d - growth30d) * 2))
  /\ (forall growth7d growth30d,
         growth7d <= growth30d ->
         ScoringEngine.calculateTrendVelocity growth7d growth30d
         == Qmax (-100) ((growth7d - growth30d) * 2))
  /\ ScoringEngine.calculateTrendVelocity 10 5 = 10
  /\ ScoringEngine.calculateTrendVelocity 5 10 = -10
  /\ ScoringEngine.calculateTrendVelocity 60 0 = 100
  /\ ~ ScoringEngine.calculateTrendVelocity 60 0 == 120.
Proof.
  split; [|split; [|split; [|split; [|split]]]].
  - intros g7 g30 H. unfold ScoringEngine.calculateTrendVelocity, Qgtb.
    apply Qltb_lt in H. rewrite H. apply Math_min_Qmin.
  - intros g7 g30 H. unfold ScoringEngine.calculateTrendVelocity, Qgtb.
    apply Qltb_ge in H. rewrite H. apply Math_max_Qmax.
  - reflexivity.
  - reflexivity.
  - reflexivity.
  - vm_compute. discriminate.
Qed.

Lemma trend_velocity_branches_witness :
  5 < 10 /\ 5 <= 10
  /\ ScoringEngine.calculateTrendVelocity 10 5 == Qmin 100 ((10 - 5) * 2)
  /\ ScoringEngine.calculateTrendVelocity 5 10 == Qmax (-100) ((5 - 10) * 2).
Proof.
  assert (Hlt : 5 < 10) by reflexivity.
  assert (Hle : 5 <= 10) by discriminate.
  split; [exact Hlt | split; [exact Hle | split]].
  - exact (proj1 trend_velocity_branches 10 5 Hlt).
  - exact (proj1 (proj2 trend_velocity_branches) 5 10 Hle).
Defined.

(** In exact arithmetic the two branches never disagree with a two-sided
    clamp: the accelerating branch is positive, the other one is not. *)
Remark trend_velocity_is_clamp growth7d growth30d :
  ScoringEngine.calculateTrendVelocity growth7d growth30d
  == Qmax (-100) (Qmin 100 ((growth7d - growth30d) * 2)).
Proof.
  unfold ScoringEngine.calculateTrendVelocity, Qgtb.
  set (d := (growth7d - growth30d) * 2).
  destruct (Qltb growth30d growth7d) eqn:E.
  - apply Qltb_lt in E. rewrite Math_min_Qmin.
    assert (Hpos : 0 < Qmin 100 d).
    { destruct (Q.min_spec 100 d) as [[_ ->] | [_ ->]]; subst d; lra. }
    symmetry. apply Q.max_r. lra.
  - apply Qltb_ge in E. rewrite Math_max_Qmax.
    rewrite (Q.min_r 100 d) by (subst d; lra). reflexivity.
Qed.

Lemma seo_score_bounds keyword metrics :
  valid_keyword keyword ->
  if_present conversion_in_range metrics ->
  (0 <= ScoringEngine.calculateSEOScore keyword metrics <= 100)%Z.
Proof.
  intros [Hsv [Hci0 Hci1]] Hm.
  unfold ScoringEngine.calculateSEOScore.
  set (cp := match metrics with
             | Some m => KeywordMetrics.conversion_potential m
             | None => 50
             end).
  assert (Hcp : 0 <= cp <= 100).
  { subst cp. destruct metrics; [exact Hm | lra]. }
  apply inject_Z_nonneg in Hsv, Hci0. apply inject_Z_le_100 in Hci1.
  set (sv := inject_Z (Keyword.search_volume keyword)) in *.
  set (ci := inject_Z (Keyword.competition_index keyword)) in *.
  destruct (Math_min_spec (sv / 20) 50) as [[Hb ->] | [Hb ->]];
    unfold Qdiv in *; change (/ 20) with (1 # 20) in *; split.
  - apply Math_round_lower. change (inject_Z 0) with 0. lra.
  - apply Math_round_upper. change (inject_Z 100) with 100. lra.
  - apply Math_round_lower. change (inject_Z 0) with 0. lra.
  - apply Math_round_upper. change (inject_Z 100) with 100. lra.
Qed.

(** X23.  Within the ranges of the data model (search_volume >= 0,
    competition_index and conversion_potential in [0,100], metrics present
    or absent) the SEO score lies between 0 and 100 however large the
    search volume: the volume term stops at 50, the two others at 30 and
    20. *)
Theorem seo_score_within_0_100 :
  forall keyword metrics,
    valid_keyword keyword ->
    if_present conversion_in_range metrics ->
    (0 <= ScoringEngine.calculateSEOScore keyword metrics <= 100)%Z.
Proof.
  intros keyword metrics Hk Hm. exact (seo_score_bounds keyword metrics Hk Hm).
Qed.

Lemma seo_score_within_0_100_witness :
  valid_keyword (sample_keyword "k1" 1000000 0 peak)
  /\ if_present conversion_in_range (Some (sample_metrics 100 35 82))
  /\ (0 <= ScoringEngine.calculateSEOScore
             (sample_keyword "k1" 1000000 0 peak)
             (Some (sample_metrics 100 35 82)) <= 100)%Z.
Proof.
  assert (Hk : valid_keyword (sample_keyword "k1" 1000000 0 peak))
    by (unfold valid_keyword; simpl; lia).
  assert (Hm : if_present conversion_in_range
                 (Some (sample_metrics 100 35 82)))
    by (simpl; unfold conversion_in_range; simpl; split; discriminate).
  split; [exact Hk | split; [exact Hm |]].
  exact (seo_score_within_0_100 _ _ Hk Hm).
Defined.

(** The bound of 100 is reached. *)
Example seo_score_100_reached :
  ScoringEngine.calculateSEOScore
    (sample_keyword "k1" 1000000 0 peak)
    (Some (sample_metrics 100 35 82)) = 100%Z.
Proof. reflexivity. Qed.


(** The rounding is the one of the doubles: at an exact tie the sum of the
    doubles can fall short of it, and the score is then one less than in
    exact arithmetic. *)
Example seo_score_at_ties :
  Binary64.calculateSEOScore 0 3 (Some 2%float) = Finite 29
  /\ ScoringEngine.calculateSEOScore
       (sample_keyword "k1" 0 3 stable) (Some (sample_metrics 2 35 82))
     = 30%Z
  /\ Binary64.calculateSEOScore 8 33 None = Finite 30
  /\ ScoringEngine.calculateSEOScore (sample_keyword "k1" 8 33 stable) None
     = 31%Z
  /\ Binary64.calculateSEOScore 1000000 0 (Some 100%float) = Finite 100.
Proof. repeat split; vm_compute; reflexivity. Qed.

(** For every keyword without metrics whose search volume is from 0 to
    1000 and whose competition index is from 0 to 100, the score on
    doubles is the score of the exact model or one less. *)
Remark binary64_tracks_exact_on_grid (search_volume competition_index : Z) :
  (0 <= search_volume <= 1000)%Z ->
  (0 <= competition_index <= 100)%Z ->
  binary64_tracks_exact search_volume competition_index = true.
Proof.
  intros Hsv Hci.
  assert (Hgrid :
            forallb
              (fun sv =>
                 forallb
                   (fun ci =>
                      binary64_tracks_exact (Z.of_nat sv) (Z.of_nat ci))
                   (seq 0 101))
              (seq 0 1001) = true)
    by (vm_compute; reflexivity).
  rewrite forallb_forall in Hgrid.
  assert (Hrow := Hgrid (Z.to_nat search_volume)).
  rewrite forallb_forall in Hrow.
  assert (Hcell := Hrow ltac:(apply in_seq; lia)
                     (Z.to_nat competition_index) ltac:(apply in_seq; lia)).
  now rewrite !Z2Nat.id in Hcell by lia.
Qed.

(** C10.  On the ranges of the data model (search_volume >= 0,
    competition_index in [0,100], niche_saturation in [0,100],
    velocity_score in [-100,100], snapshots present or absent) the rounded
    score that calculateOpportunityScore computes before its clamp is at
    most 65, and the revenue tier it returns is neither high nor
    very_high. *)
Theorem opportunity_score_at_most_65 :
  forall keyword metrics trend,
    valid_keyword keyword ->
    if_present saturation_in_range metrics ->
    if_present velocity_in_range trend ->
    (ScoringEngine.opportunityScore keyword metrics trend <= 65)%Z
    /\ OpportunityScore.potential_revenue_tier
         (ScoringEngine.calculateOpportunityScore keyword metrics trend)
       <> high
    /\ OpportunityScore.potential_revenue_tier
         (ScoringEngine.calculateOpportunityScore keyword metrics trend)
       <> very_high.
Proof.
  intros keyword metrics trend Hk Hm Ht.
  pose proof (opportunityScore_bounds keyword metrics trend Hk Hm Ht) as Hb.
  unfold ScoringEngine.calculateOpportunityScore.
  cbn [OpportunityScore.potential_revenue_tier].
  unfold ScoringEngine.categorizeRevenueTier.
  set (s := ScoringEngine.opportunityScore keyword metrics trend) in *.
  assert (H80 : (80 <? s)%Z = false) by (apply Z.ltb_ge; lia).
  assert (H70 : (70 <? s)%Z = false) by (apply Z.ltb_ge; lia).
  rewrite H80, H70. cbn [andb].
  split; [lia|]. destruct (50 <? s)%Z; split; discriminate.
Qed.

Lemma opportunity_score_at_most_65_witness :
  valid_keyword (sample_keyword "k1" 1000000 0 peak)
  /\ if_present saturation_in_range (Some (sample_metrics 100 0 100))
  /\ if_present velocity_in_range (Some (sample_trend 100))
  /\ (ScoringEngine.opportunityScore
        (sample_keyword "k1" 1000000 0 peak)
        (Some (sample_metrics 100 0 100))
        (Some (sample_trend 100)) <= 65)%Z.
Proof.
  assert (Hk : valid_keyword (sample_keyword "k1" 1000000 0 peak))
    by (unfold valid_keyword; simpl; lia).
  assert (Hm : if_present saturation_in_range
                 (Some (sample_metrics 100 0 100)))
    by (simpl; unfold saturation_in_range; simpl; split; discriminate).
  assert (Ht : if_present velocity_in_range (Some (sample_trend 100)))
    by (simpl; unfold velocity_in_range; simpl; split; discriminate).
  split; [exact Hk | split; [exact Hm | split; [exact Ht |]]].
  exact (proj1 (opportunity_score_at_most_65 _ _ _ Hk Hm Ht)).
Defined.

(** The bound of 65 is reached, with the tier medium. *)
Example opportunity_score_65_reached :
  let o := ScoringEngine.calculateOpportunityScore
             (sample_keyword "k1" 1000000 0 peak)
             (Some (sample_metrics 100 0 100))
             (Some (sample_trend 100)) in
  OpportunityScore.opportunity_score o = 65%Z
  /\ OpportunityScore.potential_revenue_tier o = medium.
Proof. split; reflexivity. Qed.

(* ================================================================== *)
(** * The sort of [JsArray]

[key] is what the comparator orders by: [compare x y] is positive
exactly when [x] has the smaller key, so that the result goes from the
largest key to the smallest. *)

Section SortFacts.
Context {A : Type}.
Variable key : A -> Z.
Variable compare : A -> A -> Z.
Hypothesis compare_key :
  forall x y, (0 <? compare x y)%Z = (key x <? key y)%Z.

Local Abbreviation by_key_desc := (fun x y : A => (key y <= key x)%Z).

Lemma insert_permutation x l :
  Permutation (JsArray.insert compare x l) (x :: l).
Proof.
  induction l as [|y l IH]; cbn.
  - reflexivity.
  - destruct (0 <? compare x y)%Z.
    + rewrite IH. apply perm_swap.
    + reflexivity.
Qed.

Lemma sort_permutation l : Permutation (JsArray.sort compare l) l.
Proof.
  induction l as [|x l IH]; cbn.
  - reflexivity.
  - rewrite insert_permutation. now constructor.
Qed.

Lemma insert_sorted x l :
  StronglySorted by_key_desc l ->
  StronglySorted by_key_desc (JsArray.insert compare x l).
Proof.
  induction 1 as [|y l Hl IH Hy]; cbn.
  - repeat constructor.
  - rewrite compare_key. destruct (Z.ltb_spec (key x) (key y)) as [Hlt | Hge].
    + constructor; [exact IH|].
      eapply Permutation_Forall;
        [symmetry; apply insert_permutation|].
      constructor; [lia | exact Hy].
    + constructor; [now constructor|].
      constructor; [exact Hge|].
      eapply Forall_impl; [|exact Hy].
      cbv beta. intros z Hz. lia.
Qed.

Lemma sort_sorted l : StronglySorted by_key_desc (JsArray.sort compare l).
Proof.
  induction l as [|x l IH]; cbn.
  - constructor.
  - now apply insert_sorted.
Qed.

(** Stability: the elements of one key keep their order. *)
Lemma insert_same_key x l k :
  filter (fun a => key a =? k)%Z (JsArray.insert compare x l)
  = filter (fun a => key a =? k)%Z (x :: l).
Proof.
  induction l as [|y l IH]; cbn.
  - reflexivity.
  - rewrite compare_key. destruct (Z.ltb_spec (key x) (key y)) as [Hlt | Hge].
    + cbn in *. rewrite IH.
      destruct (Z.eqb_spec (key x) k), (Z.eqb_spec (key y) k);
        try reflexivity; lia.
    + reflexivity.
Qed.

Lemma sort_same_key l k :
  filter (fun a => key a =? k)%Z (JsArray.sort compare l)
  = filter (fun a => key a =? k)%Z l.
Proof.
  induction l as [|x l IH]; cbn.
  - reflexivity.
  - rewrite insert_same_key. cbn. now rewrite IH.
Qed.

(** A list in descending order of the keys is determined by the order it
    gives to the elements of each key: every stable sort of [l] returns
    what [JsArray.sort] returns. *)
Lemma descending_stable_unique (r1 r2 : list A) :
  StronglySorted by_key_desc r1 ->
  StronglySorted by_key_desc r2 ->
  (forall k, filter (fun a => key a =? k)%Z r1
             = filter (fun a => key a =? k)%Z r2) ->
  r1 = r2.
Proof.
  intros H1. revert r2.
  induction H1 as [|x r1 Hs1 IH Hx]; intros r2 H2 Hf.
  - destruct r2 as [|y r2]; [reflexivity|].
    specialize (Hf (key y)). cbn in Hf. rewrite Z.eqb_refl in Hf.
    discriminate.
  - destruct H2 as [|y r2 Hs2 Hy].
    + specialize (Hf (key x)). cbn in Hf. rewrite Z.eqb_refl in Hf.
      discriminate.
    + assert (Hxin : In x (y :: r2)).
      { apply (filter_In (fun a => key a =? key x)%Z).
        rewrite <- Hf. cbn. rewrite Z.eqb_refl. now left. }
      assert (Hyin : In y (x :: r1)).
      { apply (filter_In (fun a => key a =? key y)%Z).
        rewrite Hf. cbn. rewrite Z.eqb_refl. now left. }
      assert (Hk : key x = key y).
      { rewrite Forall_forall in Hx, Hy.
        destruct Hxin as [-> | Hxin]; [reflexivity|].
        destruct Hyin as [-> | Hyin]; [reflexivity|].
        specialize (Hx _ Hyin). specialize (Hy _ Hxin). cbv beta in *. lia. }
      assert (x = y).
      { specialize (Hf (key x)). cbn in Hf.
        rewrite <- Hk, Z.eqb_refl in Hf. congruence. }
      subst y. f_equal. apply IH; [exact Hs2|].
      intros k. specialize (Hf k). cbn in Hf.
      destruct (key x =? k)%Z; congruence.
Qed.

Lemma sort_is_the_stable_sort (l r : list A) :
  StronglySorted by_key_desc r ->
  (forall k, filter (fun a => key a =? k)%Z r
             = filter (fun a => key a =? k)%Z l) ->
  r = JsArray.sort compare l.
Proof.
  intros Hs Hf. apply descending_stable_unique; [exact Hs | apply sort_sorted |].
  intros k. now rewrite Hf, sort_same_key.
Qed.

End SortFacts.

(** Two ascending lists with the same elements are the same list. *)
Lemma ascending_unique (l1 l2 : list Z) :
  StronglySorted Z.le l1 -> StronglySorted Z.le l2 ->
  Permutation l1 l2 -> l1 = l2.
Proof.
  intros H1. revert l2.
  induction H1 as [|a l1 Hs1 IH Ha]; intros l2 H2 Hp.
  - apply Permutation_nil in Hp. now subst.
  - destruct H2 as [|b l2 Hs2 Hb].
    + symmetry in Hp. apply Permutation_nil in Hp. discriminate.
    + assert (a = b).
      { assert (Hin_a : In a (b :: l2))
          by (eapply Permutation_in; [exact Hp | now left]).
        assert (Hin_b : In b (a :: l1))
          by (eapply Permutation_in; [symmetry; exact Hp | now left]).
        rewrite Forall_forall in Ha, Hb.
        destruct Hin_a as [-> | Hin_a]; [reflexivity|].
        destruct Hin_b as [-> | Hin_b]; [reflexivity|].
        specialize (Ha _ Hin_b). specialize (Hb _ Hin_a). lia. }
      subst b. f_equal. apply IH; [exact Hs2|].
      eapply Permutation_cons_inv; exact Hp.
Qed.

(** The numeric comparator [(a, b) => a - b] sorts ascending. *)
Lemma sort_numbers_ascending (l : list Z) :
  StronglySorted Z.le (JsArray.sort (fun a b => a - b)%Z l).
Proof.
  assert (H : StronglySorted (fun x y => (- y <= - x)%Z)
                (JsArray.sort (fun a b => a - b)%Z l)).
  { apply (sort_sorted Z.opp). intros x y.
    destruct (Z.ltb_spec 0 (x - y)), (Z.ltb_spec (- x) (- y));
      try reflexivity; lia. }
  induction H as [|a s Hs IH Ha]; constructor.
  - exact IH.
  - eapply Forall_impl; [|exact Ha]. cbv beta. intros z Hz. lia.
Qed.

Lemma sort_numbers_permutation (l : list Z) :
  Permutation (JsArray.sort (fun a b => a - b)%Z l) l.
Proof. apply sort_permutation. Qed.

(** [Math.floor(len / 2)] is the integer quotient. *)
Lemma floor_half (n : nat) :
  Math.floor (inject_Z (Z.of_nat n) / 2) = Z.of_nat (n / 2).
Proof.
  unfold Math.floor. change 2 with (inject_Z 2).
  rewrite <- Zdiv_Qdiv. now rewrite Nat2Z.inj_div.
Qed.

(** The loop of [findOpportunities] pushes the scored candidates in the
    order of the candidates. *)
Lemma push_loop {A B : Type} (f : A -> B) (l : list A) (acc : list B) :
  fold_left (fun acc x => JsArray.push acc (f x)) l acc = acc ++ map f l.
Proof.
  revert acc. induction l as [|x l IH]; intros acc; cbn.
  - now rewrite app_nil_r.
  - rewrite IH. unfold JsArray.push. now rewrite <- app_assoc.
Qed.

(* ================================================================== *)
(** * The keyword analyzer *)

Lemma get_of_nat {A : Type} (l : list A) (n : nat) :
  JsArray.get l (Z.of_nat n) = nth_error l n.
Proof.
  unfold JsArray.get.
  destruct (Z.ltb_spec (Z.of_nat n) 0); [lia|]. now rewrite Nat2Z.id.
Qed.

(** C4, as the specification states it, fails: when the database answers
    the empty sequence, getCompetitionAnalysis does not fail; it resolves
    to a summary whose average is NaN and whose median is undefined. *)
Lemma empty_category_is_not_rejected :
  (forall message,
      KeywordAnalyzer.getCompetitionAnalysis (client_with [] []) "barbie-core"
      <> Rejected message)
  /\ KeywordAnalyzer.getCompetitionAnalysis (client_with [] []) "barbie-core"
     = Resolved
         {| CompetitionAnalysis.low_competition := 0;
            CompetitionAnalysis.medium_competition := 0;
            CompetitionAnalysis.high_competition := 0;
            CompetitionAnalysis.average := NaN;
            CompetitionAnalysis.median := None |}.
Proof.
  split; [intros message; discriminate | reflexivity].
Qed.

(** C4, amended.  When the database answers a category with the empty
    sequence of competition indices (and no error), getCompetitionAnalysis
    resolves to the summary with the three counts 0, the average NaN and
    the median undefined. *)
Theorem empty_category_summary :
  forall supabase category,
    Supabase.error (Supabase.keywords_competition_index supabase category)
    = None ->
    Supabase.data (Supabase.keywords_competition_index supabase category)
    = Some [] ->
    KeywordAnalyzer.getCompetitionAnalysis supabase category
    = Resolved
        {| CompetitionAnalysis.low_competition := 0;
           CompetitionAnalysis.medium_competition := 0;
           CompetitionAnalysis.high_competition := 0;
           CompetitionAnalysis.average := NaN;
           CompetitionAnalysis.median := None |}.
Proof.
  intros supabase category Herr Hdata.
  unfold KeywordAnalyzer.getCompetitionAnalysis.
  rewrite Herr, Hdata. reflexivity.
Qed.

Lemma empty_category_summary_witness :
  Supabase.error
    (Supabase.keywords_competition_index (client_with [] []) "barbie-core")
  = None
  /\ Supabase.data
       (Supabase.keywords_competition_index (client_with [] []) "barbie-core")
     = Some []
  /\ KeywordAnalyzer.getCompetitionAnalysis (client_with [] []) "barbie-core"
     = Resolved
         {| CompetitionAnalysis.low_competition := 0;
            CompetitionAnalysis.medium_competition := 0;
            CompetitionAnalysis.high_competition := 0;
            CompetitionAnalysis.average := NaN;
            CompetitionAnalysis.median := None |}.
Proof.
  split; [reflexivity | split; [reflexivity |]].
  apply (empty_category_summary (client_with [] []) "barbie-core");
    reflexivity.
Defined.

(** The only failure of [getCompetitionAnalysis]: an error of the read, or
    no data. *)
Lemma competition_analysis_rejected supabase category :
  (exists message,
      KeywordAnalyzer.getCompetitionAnalysis supabase category
      = Rejected message)
  <-> Supabase.error (Supabase.keywords_competition_index supabase category)
      <> None
      \/ Supabase.data (Supabase.keywords_competition_index supabase category)
         = None.
Proof.
  unfold KeywordAnalyzer.getCompetitionAnalysis.
  destruct (Supabase.error _) as [e|], (Supabase.data _) as [d|]; split;
    try (intros _; eexists; reflexivity);
    try (intros _; left; discriminate);
    try (intros _; now right).
  - intros [message H]. discriminate.
  - intros [H | H]; [now contradiction H | discriminate].
Qed.

(** C5: the failing input.  The candidates are read, the two reads made for
    the candidate both answer with an error, and findOpportunities still
    resolves, with the score of the candidate computed from the defaults
    of absent snapshots. *)
Theorem failed_candidate_reads_are_swallowed :
  let supabase := client_failing_reads [sample_keyword "k1" 600 20 peak] in
  Supabase.error (Supabase.keyword_metrics_latest supabase "k1") <> None
  /\ Supabase.error (Supabase.trend_analysis_latest supabase "k1") <> None
  /\ KeywordAnalyzer.findOpportunities supabase 100 50
     = Resolved
         [ {| OpportunityScore.keyword := "mojo dojo house";
              OpportunityScore.opportunity_score := 25;
              OpportunityScore.search_volume := 600;
              OpportunityScore.competition_index := 20;
              OpportunityScore.category := "barbie-core";
              OpportunityScore.reason :=
                "High search volume (600 searches). Low competition. Currently at peak popularity";
              OpportunityScore.potential_revenue_tier := low |} ].
Proof.
  cbv zeta. split; [discriminate | split; [discriminate | reflexivity]].
Qed.

(** The read of the candidates is checked: its failure rejects. *)
Lemma candidates_failure_rejects supabase minSearchVolume maxCompetitionIndex :
  Supabase.error
    (Supabase.keywords_candidates supabase minSearchVolume maxCompetitionIndex)
  <> None
  \/ Supabase.data
       (Supabase.keywords_candidates supabase
          minSearchVolume maxCompetitionIndex) = None ->
  KeywordAnalyzer.findOpportunities supabase
    minSearchVolume maxCompetitionIndex
  = Rejected
      ("Failed to fetch keywords: "
         ++ Supabase.message_of
              (Supabase.error
                 (Supabase.keywords_candidates supabase
                    minSearchVolume maxCompetitionIndex))).
Proof.
  unfold KeywordAnalyzer.findOpportunities.
  destruct (Supabase.error _) as [e|], (Supabase.data _) as [d|];
    intros [H | H]; try reflexivity; try discriminate; now contradiction H.
Qed.

(** Once the candidates are read, nothing rejects any more: whatever the
    reads made for the candidates answer, there is one result for each
    candidate. *)
Lemma candidates_read_resolves supabase minSearchVolume maxCompetitionIndex
    candidates :
  Supabase.error
    (Supabase.keywords_candidates supabase minSearchVolume maxCompetitionIndex)
  = None ->
  Supabase.data
    (Supabase.keywords_candidates supabase minSearchVolume maxCompetitionIndex)
  = Some candidates ->
  exists result,
    KeywordAnalyzer.findOpportunities supabase
      minSearchVolume maxCompetitionIndex = Resolved result
    /\ List.length result = List.length candidates.
Proof.
  intros Herr Hdata. unfold KeywordAnalyzer.findOpportunities.
  rewrite Herr, Hdata. eexists. split; [reflexivity|].
  rewrite push_loop. cbn [app].
  erewrite Permutation_length by apply sort_permutation.
  apply length_map.
Qed.

(** C7.  For every non-empty sequence of competition indices that the
    database answers, the median that getCompetitionAnalysis reports is the
    element at index floor(n/2) of the ascending arrangement of the
    sequence, an element of the sequence itself (nothing is averaged); for
    the indices 10, 20, 30, 40 it is 30. *)
Theorem median_is_element_at_half_length :
  (forall supabase category indices,
      Supabase.error (Supabase.keywords_competition_index supabase category)
      = None ->
      Supabase.data (Supabase.keywords_competition_index supabase category)
      = Some indices ->
      indices <> [] ->
      exists summary m,
        KeywordAnalyzer.getCompetitionAnalysis supabase category
        = Resolved summary
        /\ CompetitionAnalysis.median summary = Some m
        /\ In m indices
        /\ forall ascending,
             StronglySorted Z.le ascending ->
             Permutation ascending indices ->
             nth_error ascending (List.length indices / 2) = Some m)
  /\ KeywordAnalyzer.getCompetitionAnalysis
       (client_with [] [10; 20; 30; 40]%Z) "barbie-core"
     = Resolved
         {| CompetitionAnalysis.low_competition := 3;
            CompetitionAnalysis.medium_competition := 1;
            CompetitionAnalysis.high_competition := 0;
            CompetitionAnalysis.average := Finite 25;
            CompetitionAnalysis.median := Some 30%Z |}.
Proof.
  split; [|reflexivity].
  intros supabase category indices Herr Hdata Hne.
  unfold KeywordAnalyzer.getCompetitionAnalysis. rewrite Herr, Hdata.
  set (sorted := JsArray.sort (fun a b => (a - b)%Z) indices).
  assert (Hperm : Permutation sorted indices)
    by apply sort_numbers_permutation.
  assert (Hlen : List.length sorted = List.length indices)
    by now apply Permutation_length.
  assert (Hhalf : (List.length indices / 2 < List.length sorted)%nat).
  { rewrite Hlen. apply Nat.div_lt; [|lia].
    destruct indices; [congruence | cbn; lia]. }
  destruct (nth_error sorted (List.length indices / 2)) as [m|] eqn:Hm;
    [|apply nth_error_None in Hm; lia].
  eexists. exists m. split; [reflexivity|].
  cbn [CompetitionAnalysis.median].
  rewrite floor_half, get_of_nat, Hlen.
  split; [exact Hm|]. split.
  - eapply Permutation_in; [exact Hperm|]. eapply nth_error_In; exact Hm.
  - intros ascending Hsorted Hasc.
    rewrite (ascending_unique ascending sorted); [exact Hm | exact Hsorted | |].
    + apply sort_numbers_ascending.
    + now rewrite Hasc, Hperm.
Qed.

Lemma median_is_element_at_half_length_witness :
  let supabase := client_with [] [40; 10; 30; 20]%Z in
  Supabase.error (Supabase.keywords_competition_index supabase "barbie-core")
  = None
  /\ Supabase.data
       (Supabase.keywords_competition_index supabase "barbie-core")
     = Some [40; 10; 30; 20]%Z
  /\ [40; 10; 30; 20]%Z <> []
  /\ exists summary m,
       KeywordAnalyzer.getCompetitionAnalysis supabase "barbie-core"
       = Resolved summary
       /\ CompetitionAnalysis.median summary = Some m
       /\ In m [40; 10; 30; 20]%Z
       /\ forall ascending,
            StronglySorted Z.le ascending ->
            Permutation ascending [40; 10; 30; 20]%Z ->
            nth_error ascending (List.length [40; 10; 30; 20]%Z / 2) = Some m.
Proof.
  cbv zeta.
  split; [reflexivity | split; [reflexivity | split; [discriminate |]]].
  apply (proj1 median_is_element_at_half_length
           (client_with [] [40; 10; 30; 20]%Z) "barbie-core"%string
           [40; 10; 30; 20]%Z);
    [reflexivity | reflexivity | discriminate].
Defined.

(** C8.  For every sequence of candidates that the database answers,
    findOpportunities returns the scored candidates in non-increasing order
    of opportunity_score, and the results of one score are in the order
    their candidates had. *)
Theorem opportunities_sorted_and_stable :
  forall supabase minSearchVolume maxCompetitionIndex candidates,
    Supabase.error
      (Supabase.keywords_candidates supabase
         minSearchVolume maxCompetitionIndex) = None ->
    Supabase.data
      (Supabase.keywords_candidates supabase
         minSearchVolume maxCompetitionIndex) = Some candidates ->
    exists result,
      KeywordAnalyzer.findOpportunities supabase
        minSearchVolume maxCompetitionIndex = Resolved result
      /\ StronglySorted
           (fun a b => (OpportunityScore.opportunity_score b
                        <= OpportunityScore.opportunity_score a)%Z)
           result
      /\ Permutation result
           (map (KeywordAnalyzer.scoreCandidate supabase) candidates)
      /\ forall score,
           filter (fun o => (OpportunityScore.opportunity_score o =? score)%Z)
                  result
           = filter (fun o => (OpportunityScore.opportunity_score o =? score)%Z)
                    (map (KeywordAnalyzer.scoreCandidate supabase) candidates).
Proof.
  intros supabase minSearchVolume maxCompetitionIndex candidates Herr Hdata.
  unfold KeywordAnalyzer.findOpportunities. rewrite Herr, Hdata.
  eexists. split; [reflexivity|].
  rewrite push_loop. cbn [app].
  assert (Hcmp : forall a b : OpportunityScore.t,
             (0 <? OpportunityScore.opportunity_score b
                   - OpportunityScore.opportunity_score a)%Z
             = (OpportunityScore.opportunity_score a
                <? OpportunityScore.opportunity_score b)%Z).
  { intros a b.
    destruct (Z.ltb_spec 0 (OpportunityScore.opportunity_score b
                            - OpportunityScore.opportunity_score a)),
      (Z.ltb_spec (OpportunityScore.opportunity_score a)
                  (OpportunityScore.opportunity_score b));
      try reflexivity; lia. }
  split; [|split].
  - apply (sort_sorted OpportunityScore.opportunity_score _ Hcmp).
  - apply sort_permutation.
  - intros score.
    apply (sort_same_key OpportunityScore.opportunity_score _ Hcmp).
Qed.

Lemma opportunities_sorted_and_stable_witness :
  let candidates :=
    [ sample_keyword "k1" 600 20 peak;
      sample_keyword "k2" 6000 20 peak;
      sample_keyword "k3" 600 20 rising ] in
  let supabase := client_with candidates [] in
  Supabase.error (Supabase.keywords_candidates supabase 100 50) = None
  /\ Supabase.data (Supabase.keywords_candidates supabase 100 50)
     = Some candidates
  /\ exists result,
       KeywordAnalyzer.findOpportunities supabase 100 50 = Resolved result
       /\ StronglySorted
            (fun a b => (OpportunityScore.opportunity_score b
                         <= OpportunityScore.opportunity_score a)%Z)
            result
       /\ Permutation result
            (map (KeywordAnalyzer.scoreCandidate supabase) candidates)
       /\ forall score,
            filter (fun o => (OpportunityScore.opportunity_score o =? score)%Z)
                   result
            = filter
                (fun o => (OpportunityScore.opportunity_score o =? score)%Z)
                (map (KeywordAnalyzer.scoreCandidate supabase) candidates).
Proof.
  cbv zeta. split; [reflexivity | split; [reflexivity |]].
  apply (opportunities_sorted_and_stable
           (client_with
              [ sample_keyword "k1" 600 20 peak;
                sample_keyword "k2" 6000 20 peak;
                sample_keyword "k3" 600 20 rising ] [])
           100 50)%Z; reflexivity.
Defined.

(** On that input the two candidates of score 25 follow the one of score
    32 and keep their order: k1 (peak) before k3 (rising). *)
Example opportunities_sample_order :
  match KeywordAnalyzer.findOpportunities
          (client_with
             [ sample_keyword "k1" 600 20 peak;
               sample_keyword "k2" 6000 20 peak;
               sample_keyword "k3" 600 20 rising ] []) 100 50 with
  | Resolved result =>
      map (fun o => (OpportunityScore.opportunity_score o,
                     OpportunityScore.reason o)) result
      = [ (32%Z, "High search volume (6000 searches). Low competition. Currently at peak popularity"%string);
          (25%Z, "High search volume (600 searches). Low competition. Currently at peak popularity"%string);
          (25%Z, "High search volume (600 searches). Low competition. Trending upward"%string) ]
  | Rejected _ => False
  end.
Proof. reflexivity. Qed.

(* ================================================================== *)
(** * Further properties of the scoring engine *)

Lemma Math_round_monotone (x y : Q) :
  x <= y -> (Math.round x <= Math.round y)%Z.
Proof.
  intros H. unfold Math.round. apply Qfloor_resp_le. lra.
Qed.

Lemma Math_round_compat (x y : Q) : x == y -> Math.round x = Math.round y.
Proof.
  intros H. unfold Math.round. apply Qfloor_comp. now rewrite H.
Qed.

Lemma Math_min_monotone (a b c : Q) : a <= b -> Math.min a c <= Math.min b c.
Proof.
  intros H.
  destruct (Math_min_spec a c) as [[? ->] | [? ->]],
           (Math_min_spec b c) as [[? ->] | [? ->]]; lra.
Qed.

Lemma Math_max_monotone (a b c : Q) : a <= b -> Math.max c a <= Math.max c b.
Proof.
  intros H.
  destruct (Math_max_spec c a) as [[? ->] | [? ->]],
           (Math_max_spec c b) as [[? ->] | [? ->]]; lra.
Qed.

(** The rounded weighted sum, written with the defaults of the absent
    snapshots. *)
Lemma opportunityScore_unfold keyword metrics trend :
  ScoringEngine.opportunityScore keyword metrics trend
  = Math.round
      ((Math.min (inject_Z (Keyword.search_volume keyword) / 100) 100 * 0.2
        + (100 - inject_Z (Keyword.competition_index keyword)) * 0.4
        + Math.max 0 (velocity_or_default trend) * 0.3
        + (100 - saturation_or_default metrics) * 0.2) / 1.7).
Proof. reflexivity. Qed.

(** X1.  The opportunity score never goes down when the search volume
    or the trend velocity goes up, or when the competition index or the
    niche saturation goes down (the other three inputs not moving the other
    way). *)
Theorem opportunity_score_monotone :
  forall k1 k2 m1 m2 t1 t2,
    (Keyword.search_volume k1 <= Keyword.search_volume k2)%Z ->
    (Keyword.competition_index k2 <= Keyword.competition_index k1)%Z ->
    velocity_or_default t1 <= velocity_or_default t2 ->
    saturation_or_default m2 <= saturation_or_default m1 ->
    (OpportunityScore.opportunity_score
       (ScoringEngine.calculateOpportunityScore k1 m1 t1)
     <= OpportunityScore.opportunity_score
          (ScoringEngine.calculateOpportunityScore k2 m2 t2))%Z.
Proof.
  intros k1 k2 m1 m2 t1 t2 Hsv Hci Hv Hns.
  unfold ScoringEngine.calculateOpportunityScore.
  cbn [OpportunityScore.opportunity_score].
  enough (ScoringEngine.opportunityScore k1 m1 t1
          <= ScoringEngine.opportunityScore k2 m2 t2)%Z by lia.
  rewrite !opportunityScore_unfold. apply Math_round_monotone.
  rewrite Zle_Qle in Hsv, Hci.
  set (sv1 := inject_Z (Keyword.search_volume k1)) in *.
  set (sv2 := inject_Z (Keyword.search_volume k2)) in *.
  set (ci1 := inject_Z (Keyword.competition_index k1)) in *.
  set (ci2 := inject_Z (Keyword.competition_index k2)) in *.
  assert (Hq : sv1 / 100 <= sv2 / 100).
  { unfold Qdiv. change (/ 100) with (1 # 100). lra. }
  pose proof (Math_min_monotone _ _ 100 Hq) as Hmin.
  pose proof (Math_max_monotone _ _ 0 Hv) as Hmax.
  unfold Qdiv in *. change (/ 1.7) with (10 # 17).
  set (a1 := Math.min (sv1 * / 100) 100) in *.
  set (a2 := Math.min (sv2 * / 100) 100) in *.
  set (b1 := Math.max 0 (velocity_or_default t1)) in *.
  set (b2 := Math.max 0 (velocity_or_default t2)) in *.
  lra.
Qed.

Lemma opportunity_score_monotone_witness :
  (600 <= 1340)%Z /\ (25 <= 40)%Z
  /\ velocity_or_default None <= velocity_or_default (Some (sample_trend 65))
  /\ saturation_or_default (Some (sample_metrics 75 35 82))
     <= saturation_or_default None
  /\ (OpportunityScore.opportunity_score
        (ScoringEngine.calculateOpportunityScore
           (sample_keyword "k1" 600 40 stable) None None)
      <= OpportunityScore.opportunity_score
           (ScoringEngine.calculateOpportunityScore
              (sample_keyword "k2" 1340 25 peak)
              (Some (sample_metrics 75 35 82))
              (Some (sample_trend 65))))%Z.
Proof.
  assert (H1 : (600 <= 1340)%Z) by lia.
  assert (H2 : (25 <= 40)%Z) by lia.
  assert (H3 : velocity_or_default None
               <= velocity_or_default (Some (sample_trend 65)))
    by discriminate.
  assert (H4 : saturation_or_default (Some (sample_metrics 75 35 82))
               <= saturation_or_default None)
    by discriminate.
  split; [exact H1 | split; [exact H2 | split; [exact H3 | split;
    [exact H4 |]]]].
  exact (opportunity_score_monotone
           (sample_keyword "k1" 600 40 stable)
           (sample_keyword "k2" 1340 25 peak)
           None (Some (sample_metrics 75 35 82))
           None (Some (sample_trend 65)) H1 H2 H3 H4).
Defined.

Lemma Math_max_0_nonpositive (v : Q) : v <= 0 -> Math.max 0 v == 0.
Proof.
  intros H. destruct (Math_max_spec 0 v) as [[? ->] | [? ->]]; lra.
Qed.

(** X2.  A trend that is flat or falling never lowers anything: a trend
    snapshot whose velocity is zero or negative gives the very record that
    an absent trend snapshot gives (score, reason and tier). *)
Theorem nonpositive_velocity_is_like_no_trend :
  forall keyword metrics tr,
    TrendAnalysis.velocity_score tr <= 0 ->
    ScoringEngine.calculateOpportunityScore keyword metrics (Some tr)
    = ScoringEngine.calculateOpportunityScore keyword metrics None.
Proof.
  intros keyword metrics tr Hv.
  assert (Hs : ScoringEngine.opportunityScore keyword metrics (Some tr)
               = ScoringEngine.opportunityScore keyword metrics None).
  { rewrite !opportunityScore_unfold. apply Math_round_compat.
    cbn [velocity_or_default].
    rewrite (Math_max_0_nonpositive _ Hv).
    rewrite (Math_max_0_nonpositive 0) by lra. reflexivity. }
  assert (Hr : ScoringEngine.generateReason keyword metrics (Some tr)
               = ScoringEngine.generateReason keyword metrics None).
  { unfold ScoringEngine.generateReason, Qgtb.
    assert (H50 : Qltb 50 (TrendAnalysis.velocity_score tr) = false)
      by (apply Qltb_ge; lra).
    assert (H20 : Qltb 20 (TrendAnalysis.velocity_score tr) = false)
      by (apply Qltb_ge; lra).
    rewrite H50, H20. reflexivity. }
  unfold ScoringEngine.calculateOpportunityScore. rewrite Hs, Hr. reflexivity.
Qed.

Lemma nonpositive_velocity_is_like_no_trend_witness :
  TrendAnalysis.velocity_score (sample_trend (-40)) <= 0
  /\ ScoringEngine.calculateOpportunityScore
       (sample_keyword "k1" 1340 25 peak) None (Some (sample_trend (-40)))
     = ScoringEngine.calculateOpportunityScore
         (sample_keyword "k1" 1340 25 peak) None None.
Proof.
  assert (H : TrendAnalysis.velocity_score (sample_trend (-40)) <= 0)
    by discriminate.
  split; [exact H |].
  exact (nonpositive_velocity_is_like_no_trend _ _ _ H).
Defined.

Lemma Math_min_saturated (x c : Q) : c <= x -> Math.min x c == c.
Proof.
  intros H. destruct (Math_min_spec x c) as [[? ->] | [? ->]]; lra.
Qed.

(** X3.  The search volume saturates: from 10000 searches on it changes
    neither the opportunity score nor the revenue tier, and from 1000
    searches on it does not change the SEO score. *)
Theorem search_volume_saturates :
  (forall k1 k2 metrics trend,
      Keyword.competition_index k1 = Keyword.competition_index k2 ->
      (10000 <= Keyword.search_volume k1)%Z ->
      (10000 <= Keyword.search_volume k2)%Z ->
      OpportunityScore.opportunity_score
        (ScoringEngine.calculateOpportunityScore k1 metrics trend)
      = OpportunityScore.opportunity_score
          (ScoringEngine.calculateOpportunityScore k2 metrics trend)
      /\ OpportunityScore.potential_revenue_tier
           (ScoringEngine.calculateOpportunityScore k1 metrics trend)
         = OpportunityScore.potential_revenue_tier
             (ScoringEngine.calculateOpportunityScore k2 metrics trend))
  /\ (forall k1 k2 metrics,
         Keyword.competition_index k1 = Keyword.competition_index k2 ->
         (1000 <= Keyword.search_volume k1)%Z ->
         (1000 <= Keyword.search_volume k2)%Z ->
         ScoringEngine.calculateSEOScore k1 metrics
         = ScoringEngine.calculateSEOScore k2 metrics).
Proof.
  split.
  - intros k1 k2 metrics trend Hci H1 H2.
    assert (Hs : ScoringEngine.opportunityScore k1 metrics trend
                 = ScoringEngine.opportunityScore k2 metrics trend).
    { rewrite !opportunityScore_unfold. apply Math_round_compat.
      rewrite Hci.
      rewrite (Math_min_saturated
                 (inject_Z (Keyword.search_volume k1) / 100) 100).
      2:{ rewrite Zle_Qle in H1. unfold Qdiv.
          change (/ 100) with (1 # 100). change (inject_Z 10000) with 10000 in H1.
          lra. }
      rewrite (Math_min_saturated
                 (inject_Z (Keyword.search_volume k2) / 100) 100).
      2:{ rewrite Zle_Qle in H2. unfold Qdiv.
          change (/ 100) with (1 # 100). change (inject_Z 10000) with 10000 in H2.
          lra. }
      reflexivity. }
    unfold ScoringEngine.calculateOpportunityScore.
    cbn [OpportunityScore.opportunity_score
           OpportunityScore.potential_revenue_tier].
    rewrite Hs, Hci. split; [reflexivity|].
    unfold ScoringEngine.categorizeRevenueTier.
    replace (1000 <? Keyword.search_volume k1)%Z with true
      by (symmetry; apply Z.ltb_lt; lia).
    replace (1000 <? Keyword.search_volume k2)%Z with true
      by (symmetry; apply Z.ltb_lt; lia).
    replace (500 <? Keyword.search_volume k1)%Z with true
      by (symmetry; apply Z.ltb_lt; lia).
    replace (500 <? Keyword.search_volume k2)%Z with true
      by (symmetry; apply Z.ltb_lt; lia).
    reflexivity.
  - intros k1 k2 metrics Hci H1 H2.
    unfold ScoringEngine.calculateSEOScore. apply Math_round_compat.
    rewrite Hci.
    rewrite (Math_min_saturated
               (inject_Z (Keyword.search_volume k1) / 20) 50).
    2:{ rewrite Zle_Qle in H1. unfold Qdiv.
        change (/ 20) with (1 # 20). change (inject_Z 1000) with 1000 in H1.
        lra. }
    rewrite (Math_min_saturated
               (inject_Z (Keyword.search_volume k2) / 20) 50).
    2:{ rewrite Zle_Qle in H2. unfold Qdiv.
        change (/ 20) with (1 # 20). change (inject_Z 1000) with 1000 in H2.
        lra. }
    reflexivity.
Qed.

Lemma search_volume_saturates_witness :
  Keyword.competition_index (sample_keyword "k1" 10000 25 peak)
  = Keyword.competition_index (sample_keyword "k2" 2500000 25 stable)
  /\ (10000 <= Keyword.search_volume (sample_keyword "k1" 10000 25 peak))%Z
  /\ (10000
      <= Keyword.search_volume (sample_keyword "k2" 2500000 25 stable))%Z
  /\ OpportunityScore.opportunity_score
       (ScoringEngine.calculateOpportunityScore
          (sample_keyword "k1" 10000 25 peak) None None)
     = OpportunityScore.opportunity_score
         (ScoringEngine.calculateOpportunityScore
            (sample_keyword "k2" 2500000 25 stable) None None).
Proof.
  assert (H0 : Keyword.competition_index (sample_keyword "k1" 10000 25 peak)
               = Keyword.competition_index
                   (sample_keyword "k2" 2500000 25 stable))
    by reflexivity.
  assert (H1 : (10000
                <= Keyword.search_volume (sample_keyword "k1" 10000 25 peak))%Z)
    by (cbn; lia).
  assert (H2 : (10000
                <= Keyword.search_volume
                     (sample_keyword "k2" 2500000 25 stable))%Z)
    by (cbn; lia).
  split; [exact H0 | split; [exact H1 | split; [exact H2 |]]].
  exact (proj1 (proj1 search_volume_saturates _ _ None None H0 H1 H2)).
Defined.

(** X4.  The revenue tier is monotone: a higher score, a higher search
    volume or a lower competition index never gives a lower tier. *)
Theorem revenue_tier_monotone :
  forall s1 s2 v1 v2 c1 c2,
    (s1 <= s2)%Z -> (v1 <= v2)%Z -> (c2 <= c1)%Z ->
    tier_le (ScoringEngine.categorizeRevenueTier s1 v1 c1)
            (ScoringEngine.categorizeRevenueTier s2 v2 c2).
Proof.
  intros s1 s2 v1 v2 c1 c2 Hs Hv Hc.
  unfold ScoringEngine.categorizeRevenueTier, tier_le.
  repeat match goal with
         | |- context [(?a <? ?b)%Z] =>
             destruct (Z.ltb_spec a b); cbn [andb]
         end;
    cbn [tier_rank]; lia.
Qed.

Lemma revenue_tier_monotone_witness :
  (55 <= 92)%Z /\ (600 <= 2340)%Z /\ (22 <= 45)%Z
  /\ tier_le (ScoringEngine.categorizeRevenueTier 55 600 45)
             (ScoringEngine.categorizeRevenueTier 92 2340 22).
Proof.
  assert (H1 : (55 <= 92)%Z) by lia.
  assert (H2 : (600 <= 2340)%Z) by lia.
  assert (H3 : (22 <= 45)%Z) by lia.
  split; [exact H1 | split; [exact H2 | split; [exact H3 |]]].
  exact (revenue_tier_monotone 55 92 600 2340 45 22 H1 H2 H3).
Defined.

(** X5.  On the ranges of the data model the tier is read off the returned
    score alone: medium when the score is above 50, low otherwise; the
    volume and competition thresholds of the two upper tiers never come
    into play. *)
Theorem valid_record_tier_follows_score :
  forall keyword metrics trend,
    valid_keyword keyword ->
    if_present saturation_in_range metrics ->
    if_present velocity_in_range trend ->
    let o := ScoringEngine.calculateOpportunityScore keyword metrics trend in
    OpportunityScore.potential_revenue_tier o
    = if (50 <? OpportunityScore.opportunity_score o)%Z then medium else low.
Proof.
  intros keyword metrics trend Hk Hm Ht o. subst o.
  rewrite (opportunity_score_unclamped _ _ _ Hk Hm Ht).
  pose proof (opportunityScore_bounds keyword metrics trend Hk Hm Ht) as Hb.
  unfold ScoringEngine.calculateOpportunityScore.
  cbn [OpportunityScore.potential_revenue_tier].
  unfold ScoringEngine.categorizeRevenueTier.
  replace (80 <? ScoringEngine.opportunityScore keyword metrics trend)%Z
    with false by (symmetry; apply Z.ltb_ge; lia).
  replace (70 <? ScoringEngine.opportunityScore keyword metrics trend)%Z
    with false by (symmetry; apply Z.ltb_ge; lia).
  reflexivity.
Qed.

Lemma valid_record_tier_follows_score_witness :
  valid_keyword (sample_keyword "k1" 2340 22 peak)
  /\ if_present saturation_in_range (Some (sample_metrics 75 10 82))
  /\ if_present velocity_in_range (Some (sample_trend 90))
  /\ OpportunityScore.potential_revenue_tier
       (ScoringEngine.calculateOpportunityScore
          (sample_keyword "k1" 2340 22 peak)
          (Some (sample_metrics 75 10 82)) (Some (sample_trend 90)))
     = (if (50 <? OpportunityScore.opportunity_score
                    (ScoringEngine.calculateOpportunityScore
                       (sample_keyword "k1" 2340 22 peak)
                       (Some (sample_metrics 75 10 82))
                       (Some (sample_trend 90))))%Z
        then medium else low).
Proof.
  assert (Hk : valid_keyword (sample_keyword "k1" 2340 22 peak))
    by (unfold valid_keyword; simpl; lia).
  assert (Hm : if_present saturation_in_range (Some (sample_metrics 75 10 82)))
    by (simpl; unfold saturation_in_range; simpl; split; discriminate).
  assert (Ht : if_present velocity_in_range (Some (sample_trend 90)))
    by (simpl; unfold velocity_in_range; simpl; split; discriminate).
  split; [exact Hk | split; [exact Hm | split; [exact Ht |]]].
  exact (valid_record_tier_follows_score _ _ _ Hk Hm Ht).
Defined.

(** X6.  Whatever the two growth rates, the trend velocity stays within
    [-100, 100]; swapping the two rates negates it; and it is zero exactly
    when the two rates are equal. *)
Theorem trend_velocity_range_and_symmetry :
  forall growth7d growth30d,
    -100 <= ScoringEngine.calculateTrendVelocity growth7d growth30d <= 100
    /\ ScoringEngine.calculateTrendVelocity growth7d growth30d
       == - ScoringEngine.calculateTrendVelocity growth30d growth7d
    /\ (ScoringEngine.calculateTrendVelocity growth7d growth30d == 0
        <-> growth7d == growth30d).
Proof.
  intros a b. unfold ScoringEngine.calculateTrendVelocity, Qgtb.
  destruct (Qltb b a) eqn:E1; destruct (Qltb a b) eqn:E2;
    try apply Qltb_lt in E1; try apply Qltb_lt in E2;
    try apply Qltb_ge in E1; try apply Qltb_ge in E2;
    try (exfalso; lra);
    repeat match goal with
           | |- context [Math.min ?x ?y] =>
               destruct (Math_min_spec x y) as [[? ->] | [? ->]]
           | |- context [Math.max ?x ?y] =>
               destruct (Math_max_spec x y) as [[? ->] | [? ->]]
           end;
    (split; [split; lra | split; [lra | split; intros; lra]]).
Qed.

Lemma trend_velocity_range_and_symmetry_witness :
  12 == 12 /\ ScoringEngine.calculateTrendVelocity 12 12 == 0.
Proof.
  assert (H : 12 == 12) by reflexivity.
  split; [exact H|].
  exact (proj2 (proj2 (proj2 (trend_velocity_range_and_symmetry 12 12))) H).
Defined.

Lemma seoScore_unfold keyword metrics :
  ScoringEngine.calculateSEOScore keyword metrics
  = Math.round
      (Math.min (inject_Z (Keyword.search_volume keyword) / 20) 50
       + (100 - inject_Z (Keyword.competition_index keyword)) * 0.3
       + conversion_or_default metrics * 0.2).
Proof. reflexivity. Qed.

(** X7.  The SEO score never goes down when the search volume or the
    conversion potential goes up, or when the competition index goes
    down. *)
Theorem seo_score_monotone :
  forall k1 k2 m1 m2,
    (Keyword.search_volume k1 <= Keyword.search_volume k2)%Z ->
    (Keyword.competition_index k2 <= Keyword.competition_index k1)%Z ->
    conversion_or_default m1 <= conversion_or_default m2 ->
    (ScoringEngine.calculateSEOScore k1 m1
     <= ScoringEngine.calculateSEOScore k2 m2)%Z.
Proof.
  intros k1 k2 m1 m2 Hsv Hci Hcp.
  rewrite !seoScore_unfold. apply Math_round_monotone.
  rewrite Zle_Qle in Hsv, Hci.
  set (sv1 := inject_Z (Keyword.search_volume k1)) in *.
  set (sv2 := inject_Z (Keyword.search_volume k2)) in *.
  assert (Hq : sv1 / 20 <= sv2 / 20).
  { unfold Qdiv. change (/ 20) with (1 # 20). lra. }
  pose proof (Math_min_monotone _ _ 50 Hq) as Hmin.
  set (a1 := Math.min (sv1 / 20) 50) in *.
  set (a2 := Math.min (sv2 / 20) 50) in *.
  lra.
Qed.

Lemma seo_score_monotone_witness :
  (600 <= 1340)%Z /\ (25 <= 40)%Z
  /\ conversion_or_default None
     <= conversion_or_default (Some (sample_metrics 75 35 82))
  /\ (ScoringEngine.calculateSEOScore (sample_keyword "k1" 600 40 stable) None
      <= ScoringEngine.calculateSEOScore
           (sample_keyword "k2" 1340 25 peak)
           (Some (sample_metrics 75 35 82)))%Z.
Proof.
  assert (H1 : (600 <= 1340)%Z) by lia.
  assert (H2 : (25 <= 40)%Z) by lia.
  assert (H3 : conversion_or_default None
               <= conversion_or_default (Some (sample_metrics 75 35 82)))
    by discriminate.
  split; [exact H1 | split; [exact H2 | split; [exact H3 |]]].
  exact (seo_score_monotone
           (sample_keyword "k1" 600 40 stable)
           (sample_keyword "k2" 1340 25 peak)
           None (Some (sample_metrics 75 35 82)) H1 H2 H3).
Defined.

Ltac reason_cases keyword metrics trend :=
  unfold ScoringEngine.generateReason, Qgtb;
  destruct trend as [tr|]; destruct metrics as [m|];
  destruct (Keyword.trend_status keyword) eqn:Estatus;
  cbv iota;
  repeat (match goal with
          | |- context [(?a <? ?b)%Z] => destruct (Z.ltb_spec a b)
          | |- context [Qltb ?a ?b] =>
              let E := fresh "E" in
              destruct (Qltb a b) eqn:E;
              [apply Qltb_lt in E | apply Qltb_ge in E]
          end; cbv iota);
  cbn.

(** X8.  The reason is never the empty string, and it is the fallback
    "Moderate opportunity" exactly when no factor applies: a volume of at
    most 500, a competition index from 40 to 70, no trend or a velocity of
    at most 20, a status that is neither peak nor rising, and no metrics
    or a commercial intent of at most 70. *)
Theorem reason_fallback_iff_no_factor :
  forall keyword metrics trend,
    ScoringEngine.generateReason keyword metrics trend <> ""%string
    /\ (ScoringEngine.generateReason keyword metrics trend
        = "Moderate opportunity"%string
        <-> (Keyword.search_volume keyword <= 500)%Z
            /\ (40 <= Keyword.competition_index keyword <= 70)%Z
            /\ if_present
                 (fun tr => TrendAnalysis.velocity_score tr <= 20) trend
            /\ Keyword.trend_status keyword <> peak
            /\ Keyword.trend_status keyword <> rising
            /\ if_present
                 (fun m => KeywordMetrics.commercial_intent m <= 70) metrics).
Proof.
  intros keyword metrics trend.
  split.
  - reason_cases keyword metrics trend; discriminate.
  - reason_cases keyword metrics trend;
      (split;
       [ intros Heq; try discriminate Heq;
         repeat split; try assumption; try lia; try lra; try discriminate
       | intros (Gv & [Gc Gc'] & Gt & Gp & Gr & Gm);
         try reflexivity; exfalso; cbn in Gt, Gm;
         try lia; try lra; try (now apply Gp); try (now apply Gr) ]).
Qed.

Lemma reason_fallback_iff_no_factor_witness :
  (Keyword.search_volume (sample_keyword "k1" 300 55 stable) <= 500)%Z
  /\ ScoringEngine.generateReason
       (sample_keyword "k1" 300 55 stable)
       (Some (sample_metrics 75 35 60)) (Some (sample_trend 15))
     = "Moderate opportunity"%string.
Proof.
  split; [cbn; lia |].
  apply (proj2 (reason_fallback_iff_no_factor
                  (sample_keyword "k1" 300 55 stable)
                  (Some (sample_metrics 75 35 60))
                  (Some (sample_trend 15)))).
  cbn. repeat split; try lia; discriminate.
Defined.

(* ================================================================== *)
(** * Further properties of the keyword analyzer *)

Lemma filter_length_permutation {A : Type} (f : A -> bool) (l l' : list A) :
  Permutation l l' ->
  List.length (filter f l) = List.length (filter f l').
Proof.
  induction 1 as [| x l l' _ IH | x y l | l l' l'' _ IH1 _ IH2]; cbn.
  - reflexivity.
  - destruct (f x); cbn; now rewrite IH.
  - destruct (f x), (f y); reflexivity.
  - now rewrite IH1.
Qed.

Lemma buckets_partition (l : list Z) :
  (List.length (filter (fun i => i <? 33)%Z l)
   + List.length (filter (fun i => (33 <=? i) && (i <? 66))%Z l)
   + List.length (filter (fun i => 66 <=? i)%Z l))%nat
  = List.length l.
Proof.
  induction l as [|i l IH]; cbn; [reflexivity|].
  destruct (Z.ltb_spec i 33), (Z.leb_spec 33 i), (Z.ltb_spec i 66),
    (Z.leb_spec 66 i); cbn; lia.
Qed.

(** X9.  Whatever indices the database answers, the three counts of
    getCompetitionAnalysis are the numbers of indices below 33, from 33 to
    65 and from 66 on, and they add up to the number of indices: every
    keyword of the category is in exactly one bucket. *)
Theorem competition_buckets_partition :
  forall supabase category indices,
    Supabase.error (Supabase.keywords_competition_index supabase category)
    = None ->
    Supabase.data (Supabase.keywords_competition_index supabase category)
    = Some indices ->
    exists summary,
      KeywordAnalyzer.getCompetitionAnalysis supabase category
      = Resolved summary
      /\ CompetitionAnalysis.low_competition summary
         = Z.of_nat (List.length (filter (fun i => i <? 33)%Z indices))
      /\ CompetitionAnalysis.medium_competition summary
         = Z.of_nat
             (List.length
                (filter (fun i => (33 <=? i) && (i <? 66))%Z indices))
      /\ CompetitionAnalysis.high_competition summary
         = Z.of_nat (List.length (filter (fun i => 66 <=? i)%Z indices))
      /\ (CompetitionAnalysis.low_competition summary
          + CompetitionAnalysis.medium_competition summary
          + CompetitionAnalysis.high_competition summary
          = Z.of_nat (List.length indices))%Z.
Proof.
  intros supabase category indices Herr Hdata.
  unfold KeywordAnalyzer.getCompetitionAnalysis. rewrite Herr, Hdata.
  eexists. split; [reflexivity|].
  cbn [CompetitionAnalysis.low_competition
         CompetitionAnalysis.medium_competition
         CompetitionAnalysis.high_competition].
  pose proof (sort_numbers_permutation indices) as Hp.
  rewrite !(filter_length_permutation _ _ _ Hp).
  repeat split. rewrite <- !Nat2Z.inj_add. f_equal. apply buckets_partition.
Qed.

Lemma competition_buckets_partition_witness :
  let supabase := client_with [] [70; 10; 33; 65; 66; 32]%Z in
  Supabase.error (Supabase.keywords_competition_index supabase "barbie-core")
  = None
  /\ Supabase.data
       (Supabase.keywords_competition_index supabase "barbie-core")
     = Some [70; 10; 33; 65; 66; 32]%Z
  /\ exists summary,
       KeywordAnalyzer.getCompetitionAnalysis supabase "barbie-core"
       = Resolved summary
       /\ (CompetitionAnalysis.low_competition summary
           + CompetitionAnalysis.medium_competition summary
           + CompetitionAnalysis.high_competition summary
           = Z.of_nat (List.length [70; 10; 33; 65; 66; 32]%Z))%Z.
Proof.
  cbv zeta. split; [reflexivity | split; [reflexivity |]].
  destruct (competition_buckets_partition
              (client_with [] [70; 10; 33; 65; 66; 32]%Z) "barbie-core"%string
              [70; 10; 33; 65; 66; 32]%Z eq_refl eq_refl)
    as (summary & Hres & _ & _ & _ & Hsum).
  exists summary. split; [exact Hres | exact Hsum].
Defined.

Lemma sum_bounds (lo hi : Z) (l : list Z) (acc : Z) :
  Forall (fun i => lo <= i <= hi)%Z l ->
  (acc + Z.of_nat (List.length l) * lo
   <= fold_left Z.add l acc
   <= acc + Z.of_nat (List.length l) * hi)%Z.
Proof.
  intros H. revert acc.
  induction H as [|i l Hi _ IH]; intros acc; cbn [fold_left List.length].
  - lia.
  - specialize (IH (acc + i)%Z). lia.
Qed.

Lemma median_lookup (indices : list Z) :
  indices <> [] ->
  exists m,
    JsArray.get (JsArray.sort (fun a b => (a - b)%Z) indices)
      (Math.floor
         (inject_Z
            (Z.of_nat
               (List.length (JsArray.sort (fun a b => (a - b)%Z) indices)))
          / 2))
    = Some m
    /\ In m indices.
Proof.
  intros Hne.
  set (sorted := JsArray.sort (fun a b => (a - b)%Z) indices).
  assert (Hperm : Permutation sorted indices)
    by apply sort_numbers_permutation.
  assert (Hlen : List.length sorted = List.length indices)
    by now apply Permutation_length.
  rewrite floor_half, get_of_nat.
  destruct (nth_error sorted (List.length sorted / 2)) as [m|] eqn:Hm.
  - exists m. split; [reflexivity|].
    eapply Permutation_in; [exact Hperm|]. eapply nth_error_In; exact Hm.
  - apply nth_error_None in Hm. exfalso.
    assert (List.length sorted / 2 < List.length sorted)%nat; [|lia].
    apply Nat.div_lt; [|lia]. rewrite Hlen.
    destruct indices; [congruence | cbn; lia].
Qed.

Lemma average_of_nonempty (lo hi : Z) (l : list Z) :
  l <> [] ->
  Forall (fun i => lo <= i <= hi)%Z l ->
  exists a,
    js_round (js_div (inject_Z (fold_left Z.add l 0%Z))
                     (inject_Z (Z.of_nat (List.length l))))
    = Finite (inject_Z a)
    /\ (lo <= a <= hi)%Z.
Proof.
  intros Hne Hall.
  pose proof (sum_bounds lo hi l 0 Hall) as Hsum.
  set (sum := fold_left Z.add l 0%Z) in *.
  set (n := Z.of_nat (List.length l)) in *.
  assert (Hn : (0 < n)%Z) by (subst n; destruct l; [congruence | cbn; lia]).
  assert (Hnq : 0 < inject_Z n)
    by (change 0 with (inject_Z 0); now rewrite <- Zlt_Qlt).
  unfold js_div.
  destruct (Qeq_bool (inject_Z n) 0) eqn:E.
  { apply Qeq_bool_eq in E. rewrite E in Hnq. exfalso. lra. }
  cbn [js_round]. eexists. split; [reflexivity|]. split.
  - apply Math_round_lower.
    assert (inject_Z lo <= inject_Z sum / inject_Z n); [|lra].
    apply Qle_shift_div_l; [exact Hnq|].
    rewrite <- inject_Z_mult, <- Zle_Qle. lia.
  - apply Math_round_upper.
    assert (inject_Z sum / inject_Z n <= inject_Z hi); [|lra].
    apply Qle_shift_div_r; [exact Hnq|].
    rewrite <- inject_Z_mult, <- Zle_Qle. lia.
Qed.

(** X10.  For a non-empty answer whose indices all lie between [lo] and
    [hi], the average that getCompetitionAnalysis reports is an integer
    between [lo] and [hi], and so is the median: with the indices of the
    schema both are within 0 and 100, and neither is NaN or undefined. *)
Theorem competition_average_and_median_bounds :
  forall supabase category indices lo hi,
    Supabase.error (Supabase.keywords_competition_index supabase category)
    = None ->
    Supabase.data (Supabase.keywords_competition_index supabase category)
    = Some indices ->
    indices <> [] ->
    Forall (fun i => lo <= i <= hi)%Z indices ->
    exists summary a m,
      KeywordAnalyzer.getCompetitionAnalysis supabase category
      = Resolved summary
      /\ CompetitionAnalysis.average summary = Finite (inject_Z a)
      /\ (lo <= a <= hi)%Z
      /\ CompetitionAnalysis.median summary = Some m
      /\ (lo <= m <= hi)%Z.
Proof.
  intros supabase category indices lo hi Herr Hdata Hne Hall.
  unfold KeywordAnalyzer.getCompetitionAnalysis. rewrite Herr, Hdata.
  destruct (median_lookup indices Hne) as (m & Hm & Hin).
  set (sorted := JsArray.sort (fun a b => (a - b)%Z) indices) in *.
  assert (Hperm : Permutation sorted indices)
    by apply sort_numbers_permutation.
  assert (Hsorted_ne : sorted <> []).
  { intros E. rewrite E in Hperm. apply Permutation_nil in Hperm.
    now apply Hne. }
  assert (Hsorted_all : Forall (fun i => lo <= i <= hi)%Z sorted).
  { eapply Permutation_Forall; [symmetry; exact Hperm | exact Hall]. }
  destruct (average_of_nonempty lo hi sorted Hsorted_ne Hsorted_all)
    as (a & Ha & Hab).
  eexists. exists a, m. split; [reflexivity|].
  cbn [CompetitionAnalysis.average CompetitionAnalysis.median].
  split; [exact Ha|]. split; [exact Hab|]. split; [exact Hm|].
  rewrite Forall_forall in Hall. now apply Hall.
Qed.

Lemma competition_average_and_median_bounds_witness :
  let supabase := client_with [] [70; 10; 33; 65; 66; 32]%Z in
  Supabase.error (Supabase.keywords_competition_index supabase "barbie-core")
  = None
  /\ Supabase.data
       (Supabase.keywords_competition_index supabase "barbie-core")
     = Some [70; 10; 33; 65; 66; 32]%Z
  /\ [70; 10; 33; 65; 66; 32]%Z <> []
  /\ Forall (fun i => 0 <= i <= 100)%Z [70; 10; 33; 65; 66; 32]%Z
  /\ exists summary a m,
       KeywordAnalyzer.getCompetitionAnalysis supabase "barbie-core"
       = Resolved summary
       /\ CompetitionAnalysis.average summary = Finite (inject_Z a)
       /\ (0 <= a <= 100)%Z
       /\ CompetitionAnalysis.median summary = Some m
       /\ (0 <= m <= 100)%Z.
Proof.
  cbv zeta.
  assert (Hne : [70; 10; 33; 65; 66; 32]%Z <> []) by discriminate.
  assert (Hall : Forall (fun i => 0 <= i <= 100)%Z
                   [70; 10; 33; 65; 66; 32]%Z)
    by (repeat constructor; lia).
  split; [reflexivity | split; [reflexivity | split; [exact Hne | split;
    [exact Hall |]]]].
  exact (competition_average_and_median_bounds
           (client_with [] [70; 10; 33; 65; 66; 32]%Z) "barbie-core"%string
           [70; 10; 33; 65; 66; 32]%Z 0%Z 100%Z eq_refl eq_refl Hne Hall).
Defined.

Lemma scoreCandidate_echo supabase keyword :
  let o := KeywordAnalyzer.scoreCandidate supabase keyword in
  OpportunityScore.keyword o = Keyword.keyword keyword
  /\ OpportunityScore.search_volume o = Keyword.search_volume keyword
  /\ OpportunityScore.competition_index o = Keyword.competition_index keyword
  /\ OpportunityScore.category o = Keyword.category keyword.
Proof. cbv zeta. repeat split. Qed.

(** X11.  findOpportunities fails exactly when the read of the candidates
    reports an error or gives no data.  Otherwise it resolves to one result
    for each candidate, each carrying the keyword text, search volume,
    competition index and category of a candidate; with no candidate it
    resolves to the empty sequence. *)
Theorem find_opportunities_outcome :
  forall supabase minSearchVolume maxCompetitionIndex,
    let response :=
      Supabase.keywords_candidates supabase
        minSearchVolume maxCompetitionIndex in
    ((exists message,
         KeywordAnalyzer.findOpportunities supabase
           minSearchVolume maxCompetitionIndex = Rejected message)
     <-> Supabase.error response <> None \/ Supabase.data response = None)
    /\ (forall candidates,
           Supabase.error response = None ->
           Supabase.data response = Some candidates ->
           exists result,
             KeywordAnalyzer.findOpportunities supabase
               minSearchVolume maxCompetitionIndex = Resolved result
             /\ List.length result = List.length candidates
             /\ (candidates = [] -> result = [])
             /\ Forall
                  (fun o =>
                     exists k,
                       In k candidates
                       /\ OpportunityScore.keyword o = Keyword.keyword k
                       /\ OpportunityScore.search_volume o
                          = Keyword.search_volume k
                       /\ OpportunityScore.competition_index o
                          = Keyword.competition_index k
                       /\ OpportunityScore.category o = Keyword.category k)
                  result).
Proof.
  intros supabase minSearchVolume maxCompetitionIndex response.
  subst response. unfold KeywordAnalyzer.findOpportunities. split.
  - destruct (Supabase.error _) as [e|], (Supabase.data _) as [d|]; split;
      try (intros _; eexists; reflexivity);
      try (intros _; left; discriminate);
      try (intros _; now right).
    + intros [message H]. discriminate.
    + intros [H | H]; [now contradiction H | discriminate].
  - intros candidates Herr Hdata. rewrite Herr, Hdata.
    eexists. split; [reflexivity|].
    rewrite push_loop. cbn [app].
    set (compare := fun a b : OpportunityScore.t =>
                      (OpportunityScore.opportunity_score b
                       - OpportunityScore.opportunity_score a)%Z).
    pose proof (sort_permutation compare
                  (map (KeywordAnalyzer.scoreCandidate supabase) candidates))
      as Hperm.
    split; [|split].
    + rewrite (Permutation_length Hperm). apply length_map.
    + intros ->. reflexivity.
    + eapply Permutation_Forall; [symmetry; exact Hperm|].
      apply Forall_forall. intros o Ho. apply in_map_iff in Ho.
      destruct Ho as (k & <- & Hk). exists k.
      split; [exact Hk | apply scoreCandidate_echo].
Qed.

Lemma find_opportunities_outcome_witness :
  let supabase := client_with [sample_keyword "k1" 600 20 peak] [] in
  Supabase.error (Supabase.keywords_candidates supabase 100 50) = None
  /\ Supabase.data (Supabase.keywords_candidates supabase 100 50)
     = Some [sample_keyword "k1" 600 20 peak]
  /\ exists result,
       KeywordAnalyzer.findOpportunities supabase 100 50 = Resolved result
       /\ List.length result
          = List.length [sample_keyword "k1" 600 20 peak].
Proof.
  cbv zeta. split; [reflexivity | split; [reflexivity |]].
  destruct (proj2 (find_opportunities_outcome
                     (client_with [sample_keyword "k1" 600 20 peak] [])
                     100 50)%Z
              [sample_keyword "k1" 600 20 peak] eq_refl eq_refl)
    as (result & Hres & Hlen & _).
  exists result. split; [exact Hres | exact Hlen].
Defined.

(** X12.  When every candidate and the snapshots read for it are within
    the ranges of the data model, every result of findOpportunities has a
    score between 0 and 65 and a tier that is low or medium. *)
Theorem find_opportunities_scores_bounded :
  forall supabase minSearchVolume maxCompetitionIndex candidates,
    Supabase.error
      (Supabase.keywords_candidates supabase
         minSearchVolume maxCompetitionIndex) = None ->
    Supabase.data
      (Supabase.keywords_candidates supabase
         minSearchVolume maxCompetitionIndex) = Some candidates ->
    Forall
      (fun k =>
         valid_keyword k
         /\ if_present saturation_in_range
              (Supabase.data
                 (Supabase.keyword_metrics_latest supabase (Keyword.id k)))
         /\ if_present velocity_in_range
              (Supabase.data
                 (Supabase.trend_analysis_latest supabase (Keyword.id k))))
      candidates ->
    exists result,
      KeywordAnalyzer.findOpportunities supabase
        minSearchVolume maxCompetitionIndex = Resolved result
      /\ Forall
           (fun o =>
              (0 <= OpportunityScore.opportunity_score o <= 65)%Z
              /\ tier_le (OpportunityScore.potential_revenue_tier o) medium)
           result.
Proof.
  intros supabase minSearchVolume maxCompetitionIndex candidates
    Herr Hdata Hvalid.
  unfold KeywordAnalyzer.findOpportunities. rewrite Herr, Hdata.
  eexists. split; [reflexivity|].
  rewrite push_loop. cbn [app].
  eapply Permutation_Forall; [symmetry; apply sort_permutation|].
  apply Forall_forall. intros o Ho. apply in_map_iff in Ho.
  destruct Ho as (k & <- & Hk).
  rewrite Forall_forall in Hvalid. destruct (Hvalid k Hk) as (Hv & Hm & Ht).
  unfold KeywordAnalyzer.scoreCandidate.
  pose proof (opportunityScore_bounds k _ _ Hv Hm Ht) as Hb.
  rewrite (opportunity_score_unclamped k _ _ Hv Hm Ht).
  split; [exact Hb|].
  unfold ScoringEngine.calculateOpportunityScore.
  cbn [OpportunityScore.potential_revenue_tier].
  unfold ScoringEngine.categorizeRevenueTier, tier_le.
  match goal with
  | |- context [ScoringEngine.opportunityScore ?a ?b ?c] =>
      set (s := ScoringEngine.opportunityScore a b c) in *
  end.
  replace (80 <? s)%Z with false by (symmetry; apply Z.ltb_ge; lia).
  replace (70 <? s)%Z with false by (symmetry; apply Z.ltb_ge; lia).
  cbn [andb]. destruct (50 <? s)%Z; cbn; lia.
Qed.

Lemma find_opportunities_scores_bounded_witness :
  let candidates :=
    [ sample_keyword "k1" 600 20 peak; sample_keyword "k2" 6000 20 peak ] in
  let supabase := client_with candidates [] in
  Supabase.error (Supabase.keywords_candidates supabase 100 50) = None
  /\ Supabase.data (Supabase.keywords_candidates supabase 100 50)
     = Some candidates
  /\ exists result,
       KeywordAnalyzer.findOpportunities supabase 100 50 = Resolved result
       /\ Forall
            (fun o =>
               (0 <= OpportunityScore.opportunity_score o <= 65)%Z
               /\ tier_le (OpportunityScore.potential_revenue_tier o) medium)
            result.
Proof.
  cbv zeta. split; [reflexivity | split; [reflexivity |]].
  apply (find_opportunities_scores_bounded
           (client_with
              [ sample_keyword "k1" 600 20 peak;
                sample_keyword "k2" 6000 20 peak ] [])
           100 50
           [ sample_keyword "k1" 600 20 peak;
             sample_keyword "k2" 6000 20 peak ])%Z;
    [reflexivity | reflexivity |].
  repeat constructor; cbn; lia.
Defined.

(* ================================================================== *)
(** * The map of [getSeasonalTrends] *)

Lemma JsMap_get_set_same (m : JsMap.t) (k v : Z) :
  JsMap.get (JsMap.set m k v) k = Some v.
Proof.
  induction m as [|[k' v'] m IH]; cbn.
  - now rewrite Z.eqb_refl.
  - destruct (Z.eqb_spec k' k); cbn.
    + now rewrite Z.eqb_refl.
    + destruct (Z.eqb_spec k' k); [contradiction | exact IH].
Qed.

Lemma JsMap_get_set_other (m : JsMap.t) (k k' v : Z) :
  k <> k' -> JsMap.get (JsMap.set m k v) k' = JsMap.get m k'.
Proof.
  intros Hne. induction m as [|[k0 v0] m IH]; cbn.
  - destruct (Z.eqb_spec k k'); [contradiction | reflexivity].
  - destruct (Z.eqb_spec k0 k); cbn.
    + subst k0. destruct (Z.eqb_spec k k'); [contradiction | reflexivity].
    + destruct (Z.eqb_spec k0 k'); [reflexivity | exact IH].
Qed.

Lemma JsMap_get_None (m : JsMap.t) (k : Z) :
  JsMap.get m k = None <-> ~ In k (map fst m).
Proof.
  induction m as [|[k' v'] m IH]; cbn.
  - tauto.
  - destruct (Z.eqb_spec k' k).
    + split; [discriminate | intros H; exfalso; apply H; now left].
    + rewrite IH. tauto.
Qed.

Lemma JsMap_keys_set (m : JsMap.t) (k v : Z) :
  map fst (JsMap.set m k v)
  = match JsMap.get m k with
    | Some _ => map fst m
    | None => map fst m ++ [k]
    end.
Proof.
  induction m as [|[k' v'] m IH]; cbn.
  - reflexivity.
  - destruct (Z.eqb_spec k' k); cbn.
    + now subst.
    + rewrite IH. now destruct (JsMap.get m k).
Qed.

Lemma JsMap_entry_get (m : JsMap.t) (k v : Z) :
  NoDup (map fst m) -> In (k, v) m -> JsMap.get m k = Some v.
Proof.
  induction m as [|[k' v'] m IH]; cbn; intros Hnd Hin; [contradiction|].
  inversion Hnd as [|? ? Hnotin Hnd']; subst.
  destruct Hin as [E | Hin].
  - inversion E; subst. now rewrite Z.eqb_refl.
  - destruct (Z.eqb_spec k' k).
    + subst k'. exfalso. apply Hnotin.
      change k with (fst (k, v)). now apply in_map.
    + now apply IH.
Qed.

Lemma filter_filter_as {A : Type} (f g h : A -> bool) (l : list A) :
  (forall x, h x = g x && f x) ->
  filter f (filter g l) = filter h l.
Proof.
  intros H. induction l as [|x l IH]; cbn; [reflexivity|].
  rewrite H. destruct (g x); cbn; [destruct (f x)|]; now rewrite IH.
Qed.

Lemma rows_peaking_in_cons (m : Z) (item : option Z) (rows : list (option Z)) :
  rows_peaking_in m (item :: rows)
  = ((match item with
      | Some p => if (p =? m)%Z then 1 else 0
      | None => 0
      end) + rows_peaking_in m rows)%Z.
Proof.
  unfold rows_peaking_in. cbn [filter].
  destruct item as [p|]; [destruct (p =? m)%Z|]; cbn [List.length]; lia.
Qed.

Lemma rows_peaking_in_nonneg (m : Z) (rows : list (option Z)) :
  (0 <= rows_peaking_in m rows)%Z.
Proof. unfold rows_peaking_in. lia. Qed.

Local Abbreviation count_or_0 o :=
  (match o with Some count => count | None => 0%Z end).

Local Abbreviation fresh_for keys :=
  (fun y : Z => negb (existsb (Z.eqb y) keys)).

Lemma fresh_for_spec (keys : list Z) (y : Z) :
  fresh_for keys y = true <-> ~ In y keys.
Proof.
  rewrite negb_true_iff, <- not_true_iff_false, existsb_exists.
  split; intros H Hin; apply H.
  - exists y. split; [exact Hin | apply Z.eqb_refl].
  - destruct Hin as (x & Hx & E). apply Z.eqb_eq in E. now subst.
Qed.

(** What the map holds for a month after the rows have been counted. *)
Lemma count_rows_get (rows : list (option Z)) (acc : JsMap.t) (m : Z) :
  m <> 0%Z ->
  JsMap.get (fold_left KeywordAnalyzerQueries.count_step rows acc) m
  = if (rows_peaking_in m rows =? 0)%Z then JsMap.get acc m
    else Some (count_or_0 (JsMap.get acc m) + rows_peaking_in m rows)%Z.
Proof.
  intros Hm. revert acc.
  induction rows as [|item rows IH]; intros acc; cbn [fold_left].
  - reflexivity.
  - rewrite IH, rows_peaking_in_cons.
    pose proof (rows_peaking_in_nonneg m rows) as Hr.
    destruct item as [p|]; cbn [KeywordAnalyzerQueries.count_step].
    + destruct (Z.eqb_spec p 0).
      * subst p. destruct (Z.eqb_spec 0 m); [congruence|].
        now rewrite Z.add_0_l.
      * destruct (Z.eqb_spec p m).
        -- subst p. rewrite JsMap_get_set_same.
           destruct (Z.eqb_spec (1 + rows_peaking_in m rows) 0); [lia|].
           destruct (Z.eqb_spec (rows_peaking_in m rows) 0) as [E|E].
           ++ apply f_equal. lia.
           ++ apply f_equal. lia.
        -- rewrite JsMap_get_set_other by assumption.
           now rewrite Z.add_0_l.
    + now rewrite Z.add_0_l.
Qed.

Lemma count_rows_get_0 (rows : list (option Z)) (acc : JsMap.t) :
  JsMap.get (fold_left KeywordAnalyzerQueries.count_step rows acc) 0
  = JsMap.get acc 0.
Proof.
  revert acc. induction rows as [|item rows IH]; intros acc; cbn [fold_left].
  - reflexivity.
  - rewrite IH. destruct item as [p|]; cbn; [|reflexivity].
    destruct (Z.eqb_spec p 0); [reflexivity|].
    now apply JsMap_get_set_other.
Qed.

(** The months of the map, in the order of their insertion. *)
Lemma count_rows_keys (rows : list (option Z)) (acc : JsMap.t) :
  map fst (fold_left KeywordAnalyzerQueries.count_step rows acc)
  = map fst acc
    ++ filter (fresh_for (map fst acc))
         (first_occurrences (truthy_months rows)).
Proof.
  revert acc. induction rows as [|item rows IH]; intros acc; cbn [fold_left].
  - cbn. now rewrite app_nil_r.
  - rewrite IH. destruct item as [p|]; cbn [KeywordAnalyzerQueries.count_step];
      [|reflexivity].
    cbn [truthy_months flat_map].
    destruct (Z.eqb_spec p 0); [reflexivity|].
    cbn [app first_occurrences filter]. fold (truthy_months rows).
    rewrite JsMap_keys_set.
    destruct (JsMap.get acc p) as [c|] eqn:Hget.
    + assert (Hin : In p (map fst acc)).
      { destruct (in_dec Z.eq_dec p (map fst acc)) as [H|H]; [exact H|].
        apply JsMap_get_None in H. congruence. }
      assert (Hfresh : fresh_for (map fst acc) p = false).
      { apply not_true_iff_false. rewrite fresh_for_spec. tauto. }
      rewrite Hfresh. f_equal. symmetry. apply filter_filter_as.
      intros x. destruct (Z.eqb_spec x p) as [->|Hx]; cbn.
      * exact Hfresh.
      * reflexivity.
    + assert (Hfresh : fresh_for (map fst acc) p = true).
      { apply fresh_for_spec. now apply JsMap_get_None. }
      rewrite Hfresh. rewrite <- app_assoc. cbn [app]. do 2 f_equal.
      symmetry. apply filter_filter_as.
      intros x. rewrite existsb_app. cbn [existsb].
      rewrite orb_false_r, negb_orb. apply andb_comm.
Qed.

Lemma first_occurrences_In (l : list Z) (x : Z) :
  In x (first_occurrences l) <-> In x l.
Proof.
  induction l as [|y l IH]; cbn; [tauto|].
  rewrite filter_In, IH, negb_true_iff, Z.eqb_neq.
  destruct (Z.eq_dec y x); [tauto|]. split; [tauto|].
  intros [H|H]; [tauto|]. right. split; [exact H | congruence].
Qed.

Lemma first_occurrences_NoDup (l : list Z) : NoDup (first_occurrences l).
Proof.
  induction l as [|y l IH]; cbn; constructor.
  - rewrite filter_In, negb_true_iff, Z.eqb_neq. tauto.
  - now apply NoDup_filter.
Qed.

Lemma truthy_months_In (rows : list (option Z)) (m : Z) :
  In m (truthy_months rows) <-> m <> 0%Z /\ In (Some m) rows.
Proof.
  unfold truthy_months. rewrite in_flat_map. split.
  - intros ([p|] & Hin & Hm); [|contradiction].
    destruct (Z.eqb_spec p 0); [contradiction|].
    destruct Hm as [->|[]]. tauto.
  - intros [Hm Hin]. exists (Some m). split; [exact Hin|].
    destruct (Z.eqb_spec m 0); [contradiction | now left].
Qed.

Lemma entries_from_keys (l : list (Z * Z)) (g : Z -> Z) :
  (forall k v, In (k, v) l -> v = g k) ->
  l = map (fun k => (k, g k)) (map fst l).
Proof.
  induction l as [|[k v] l IH]; intros H; cbn; [reflexivity|].
  rewrite <- IH by (intros; apply H; now right).
  now rewrite <- (H k v) by now left.
Qed.

Lemma filter_all {A : Type} (l : list A) : filter (fun _ => true) l = l.
Proof. induction l; cbn; congruence. Qed.

(** The entries of the map: the truthy months at their first occurrence,
    each with the number of rows that peak in it. *)
Lemma countPeakMonths_entries (rows : list (option Z)) :
  JsMap.entries (KeywordAnalyzerQueries.countPeakMonths rows)
  = map (fun m => (m, rows_peaking_in m rows))
        (first_occurrences (truthy_months rows)).
Proof.
  unfold JsMap.entries, KeywordAnalyzerQueries.countPeakMonths.
  set (final := fold_left KeywordAnalyzerQueries.count_step rows []).
  assert (Hkeys : map fst final = first_occurrences (truthy_months rows)).
  { subst final. rewrite count_rows_keys. cbn [map app existsb negb].
    apply filter_all. }
  rewrite <- Hkeys. apply entries_from_keys.
  intros k v Hin.
  assert (Hk : k <> 0%Z).
  { assert (In k (map fst final))
      by (change k with (fst (k, v)); now apply in_map).
    rewrite Hkeys, first_occurrences_In, truthy_months_In in H. tauto. }
  assert (Hget : JsMap.get final k = Some v).
  { apply JsMap_entry_get; [|exact Hin].
    rewrite Hkeys. apply first_occurrences_NoDup. }
  subst final. rewrite (count_rows_get rows [] k Hk) in Hget. cbn in Hget.
  destruct (rows_peaking_in k rows =? 0)%Z; congruence.
Qed.

(** X13.  getSeasonalTrends returns one entry for each distinct peak
    month of the rows that is neither null nor 0, in the order in which
    the months first occur in the rows (not in calendar order); the entry
    carries the name of the month and the number of rows that peak in
    it. *)
Theorem seasonal_trends_entries :
  forall supabase category rows,
    Supabase.error (Queries.trend_peak_months supabase category) = None ->
    Supabase.data (Queries.trend_peak_months supabase category)
    = Some rows ->
    KeywordAnalyzerQueries.getSeasonalTrends supabase category
    = Resolved
        (map
           (fun m =>
              {| SeasonalTrend.month :=
                   JsArray.get KeywordAnalyzerQueries.monthNames (m - 1)%Z;
                 SeasonalTrend.peak_keywords_count :=
                   rows_peaking_in m rows |})
           (first_occurrences (truthy_months rows))).
Proof.
  intros supabase category rows Herr Hdata.
  unfold KeywordAnalyzerQueries.getSeasonalTrends. rewrite Herr, Hdata.
  rewrite countPeakMonths_entries, map_map. reflexivity.
Qed.

Lemma seasonal_trends_entries_witness :
  let supabase :=
    queries_with [] [Some 12; None; Some 3; Some 12; Some 0]%Z no_row in
  Supabase.error (Queries.trend_peak_months supabase "seasonal") = None
  /\ Supabase.data (Queries.trend_peak_months supabase "seasonal")
     = Some [Some 12; None; Some 3; Some 12; Some 0]%Z
  /\ KeywordAnalyzerQueries.getSeasonalTrends supabase "seasonal"
     = Resolved
         [ {| SeasonalTrend.month := Some "December"%string;
              SeasonalTrend.peak_keywords_count := 2 |};
           {| SeasonalTrend.month := Some "March"%string;
              SeasonalTrend.peak_keywords_count := 1 |} ].
Proof.
  cbv zeta. split; [reflexivity | split; [reflexivity |]].
  exact (seasonal_trends_entries
           (queries_with [] [Some 12; None; Some 3; Some 12; Some 0]%Z no_row)
           "seasonal"%string
           [Some 12; None; Some 3; Some 12; Some 0]%Z eq_refl eq_refl).
Defined.

Local Abbreviation total_count m := (fold_right Z.add 0%Z (map snd m)).

Lemma total_count_set (m : JsMap.t) (k : Z) :
  total_count (JsMap.set m k (count_or_0 (JsMap.get m k) + 1)%Z)
  = (total_count m + 1)%Z.
Proof.
  induction m as [|[k' v'] m IH]; cbn.
  - reflexivity.
  - destruct (Z.eqb_spec k' k); cbn; [lia|]. rewrite IH. lia.
Qed.

Lemma total_count_rows (rows : list (option Z)) (acc : JsMap.t) :
  total_count (fold_left KeywordAnalyzerQueries.count_step rows acc)
  = (total_count acc + Z.of_nat (List.length (truthy_months rows)))%Z.
Proof.
  revert acc. induction rows as [|item rows IH]; intros acc; cbn [fold_left].
  - cbn. lia.
  - rewrite IH. destruct item as [p|]; cbn [truthy_months flat_map];
      fold (truthy_months rows); cbn [KeywordAnalyzerQueries.count_step];
      [|reflexivity].
    destruct (Z.eqb_spec p 0); [reflexivity|].
    rewrite total_count_set. cbn [app List.length]. lia.
Qed.

(** X14.  The counts of getSeasonalTrends add up to the number of rows
    whose peak month is neither null nor 0: such a row is counted once, a
    row without a peak month is counted nowhere. *)
Theorem seasonal_trends_total :
  forall supabase category rows,
    Supabase.error (Queries.trend_peak_months supabase category) = None ->
    Supabase.data (Queries.trend_peak_months supabase category)
    = Some rows ->
    exists result,
      KeywordAnalyzerQueries.getSeasonalTrends supabase category
      = Resolved result
      /\ fold_right Z.add 0%Z
           (map SeasonalTrend.peak_keywords_count result)
         = Z.of_nat
             (List.length
                (filter (fun item => match item with
                                     | Some p => negb (p =? 0)%Z
                                     | None => false
                                     end) rows)).
Proof.
  intros supabase category rows Herr Hdata.
  unfold KeywordAnalyzerQueries.getSeasonalTrends. rewrite Herr, Hdata.
  eexists. split; [reflexivity|].
  rewrite map_map.
  unfold JsMap.entries, KeywordAnalyzerQueries.countPeakMonths.
  transitivity
    (total_count (fold_left KeywordAnalyzerQueries.count_step rows [])).
  - f_equal. apply map_ext. now intros [m c].
  - rewrite total_count_rows. cbn [map fold_right]. rewrite Z.add_0_l.
    f_equal. clear. induction rows as [|[p|] rows IH]; cbn; [reflexivity| |].
    + destruct (p =? 0)%Z; cbn; now rewrite <- IH.
    + exact IH.
Qed.

Lemma seasonal_trends_total_witness :
  let supabase :=
    queries_with [] [Some 12; None; Some 3; Some 12; Some 0]%Z no_row in
  Supabase.error (Queries.trend_peak_months supabase "seasonal") = None
  /\ Supabase.data (Queries.trend_peak_months supabase "seasonal")
     = Some [Some 12; None; Some 3; Some 12; Some 0]%Z
  /\ exists result,
       KeywordAnalyzerQueries.getSeasonalTrends supabase "seasonal"
       = Resolved result
       /\ fold_right Z.add 0%Z
            (map SeasonalTrend.peak_keywords_count result)
          = 3%Z.
Proof.
  cbv zeta. split; [reflexivity | split; [reflexivity |]].
  exact (seasonal_trends_total
           (queries_with [] [Some 12; None; Some 3; Some 12; Some 0]%Z no_row)
           "seasonal"%string
           [Some 12; None; Some 3; Some 12; Some 0]%Z eq_refl eq_refl).
Defined.

Lemma month_name_defined (m : Z) :
  (1 <= m <= 12)%Z ->
  exists name,
    JsArray.get KeywordAnalyzerQueries.monthNames (m - 1)%Z = Some name.
Proof.
  intros H.
  assert (Hm : (m = 1 \/ m = 2 \/ m = 3 \/ m = 4 \/ m = 5 \/ m = 6 \/ m = 7
                \/ m = 8 \/ m = 9 \/ m = 10 \/ m = 11 \/ m = 12)%Z) by lia.
  repeat (destruct Hm as [-> | Hm]; [eexists; reflexivity|]).
  subst m. eexists; reflexivity.
Qed.

Lemma month_name_injective (m n : Z) :
  (1 <= m <= 12)%Z -> (1 <= n <= 12)%Z ->
  JsArray.get KeywordAnalyzerQueries.monthNames (m - 1)%Z
  = JsArray.get KeywordAnalyzerQueries.monthNames (n - 1)%Z ->
  m = n.
Proof.
  intros Hm Hn.
  assert (Hm' : (m = 1 \/ m = 2 \/ m = 3 \/ m = 4 \/ m = 5 \/ m = 6 \/ m = 7
                 \/ m = 8 \/ m = 9 \/ m = 10 \/ m = 11 \/ m = 12)%Z) by lia.
  assert (Hn' : (n = 1 \/ n = 2 \/ n = 3 \/ n = 4 \/ n = 5 \/ n = 6 \/ n = 7
                 \/ n = 8 \/ n = 9 \/ n = 10 \/ n = 11 \/ n = 12)%Z) by lia.
  clear Hm Hn.
  repeat (destruct Hm' as [-> | Hm']);
    repeat (destruct Hn' as [-> | Hn']);
    subst; intros E; try reflexivity; discriminate E.
Qed.

(** X15.  When every peak month of the rows is null or from 1 to 12, as
    the schema requires, every entry of getSeasonalTrends has a month name
    (never undefined), no name occurs twice, and there are at most twelve
    entries. *)
Theorem seasonal_trends_names :
  forall supabase category rows,
    Supabase.error (Queries.trend_peak_months supabase category) = None ->
    Supabase.data (Queries.trend_peak_months supabase category)
    = Some rows ->
    Forall (fun item => match item with
                        | Some p => (1 <= p <= 12)%Z
                        | None => True
                        end) rows ->
    exists result,
      KeywordAnalyzerQueries.getSeasonalTrends supabase category
      = Resolved result
      /\ Forall
           (fun entry =>
              exists name,
                SeasonalTrend.month entry = Some name
                /\ In name KeywordAnalyzerQueries.monthNames)
           result
      /\ NoDup (map SeasonalTrend.month result)
      /\ (List.length result <= 12)%nat.
Proof.
  intros supabase category rows Herr Hdata Hcheck.
  unfold KeywordAnalyzerQueries.getSeasonalTrends. rewrite Herr, Hdata.
  rewrite countPeakMonths_entries, map_map.
  set (months := first_occurrences (truthy_months rows)).
  assert (Hrange : forall m, In m months -> (1 <= m <= 12)%Z).
  { intros m Hm. subst months.
    rewrite first_occurrences_In, truthy_months_In in Hm.
    rewrite Forall_forall in Hcheck. exact (Hcheck _ (proj2 Hm)). }
  eexists. split; [reflexivity|]. split; [|split].
  - apply Forall_forall. intros entry Hentry.
    apply in_map_iff in Hentry. destruct Hentry as (m & <- & Hm).
    destruct (month_name_defined m (Hrange m Hm)) as (name & Hname).
    exists name. cbn [SeasonalTrend.month]. split; [exact Hname|].
    unfold JsArray.get in Hname.
    destruct (m - 1 <? 0)%Z; [discriminate|].
    eapply nth_error_In; exact Hname.
  - rewrite map_map. cbn [SeasonalTrend.month].
    apply NoDup_map_NoDup_ForallPairs.
    + intros m n Hm Hn. apply month_name_injective; auto.
    + apply first_occurrences_NoDup.
  - rewrite length_map.
    change 12%nat
      with (List.length [1; 2; 3; 4; 5; 6; 7; 8; 9; 10; 11; 12]%Z).
    apply NoDup_incl_length; [apply first_occurrences_NoDup|].
    intros m Hm. specialize (Hrange m Hm). cbn. lia.
Qed.

Lemma seasonal_trends_names_witness :
  let supabase :=
    queries_with [] [Some 12; None; Some 3; Some 12]%Z no_row in
  Supabase.error (Queries.trend_peak_months supabase "seasonal") = None
  /\ Supabase.data (Queries.trend_peak_months supabase "seasonal")
     = Some [Some 12; None; Some 3; Some 12]%Z
  /\ Forall (fun item => match item with
                         | Some p => (1 <= p <= 12)%Z
                         | None => True
                         end) [Some 12; None; Some 3; Some 12]%Z
  /\ exists result,
       KeywordAnalyzerQueries.getSeasonalTrends supabase "seasonal"
       = Resolved result
       /\ Forall
            (fun entry =>
               exists name,
                 SeasonalTrend.month entry = Some name
                 /\ In name KeywordAnalyzerQueries.monthNames)
            result
       /\ NoDup (map SeasonalTrend.month result)
       /\ (List.length result <= 12)%nat.
Proof.
  cbv zeta.
  assert (Hcheck : Forall (fun item => match item with
                                       | Some p => (1 <= p <= 12)%Z
                                       | None => True
                                       end)
                     [Some 12; None; Some 3; Some 12]%Z)
    by (repeat constructor; lia).
  split; [reflexivity | split; [reflexivity | split; [exact Hcheck |]]].
  exact (seasonal_trends_names
           (queries_with [] [Some 12; None; Some 3; Some 12]%Z no_row)
           "seasonal"%string
           [Some 12; None; Some 3; Some 12]%Z eq_refl eq_refl Hcheck).
Defined.

(* ================================================================== *)
(** * The other reads of the analyzer *)

(** X16.  getTrendingKeywords treats an empty category like no category.
    When the read succeeds it returns one element for each row, in the
    order of the rows (it does not sort again), with the fields of the row
    and the velocity of the first embedded trend row, or 0 when the keyword
    has no trend row or that velocity is null. *)
Theorem trending_keywords_follow_rows :
  forall supabase limit,
    KeywordAnalyzerQueries.getTrendingKeywords supabase (Some ""%string) limit
    = KeywordAnalyzerQueries.getTrendingKeywords supabase None limit
    /\ forall category rows,
         let filter := match category with
                       | Some EmptyString => None
                       | other => other
                       end in
         Supabase.error (Queries.keywords_rising supabase filter limit)
         = None ->
         Supabase.data (Queries.keywords_rising supabase filter limit)
         = Some rows ->
         exists result,
           KeywordAnalyzerQueries.getTrendingKeywords supabase category limit
           = Resolved result
           /\ Forall2
                (fun row r =>
                   TrendingKeyword.keyword r = TrendingRow.keyword row
                   /\ TrendingKeyword.search_volume r
                      = TrendingRow.search_volume row
                   /\ TrendingKeyword.competition_index r
                      = TrendingRow.competition_index row
                   /\ TrendingKeyword.category r = TrendingRow.category row
                   /\ TrendingKeyword.velocity_score r
                      = match TrendingRow.trend_analysis row with
                        | None | Some [] | Some (None :: _) => 0
                        | Some (Some v :: _) => v
                        end)
                rows result.
Proof.
  intros supabase limit. split; [reflexivity|].
  intros category rows filter Herr Hdata.
  unfold KeywordAnalyzerQueries.getTrendingKeywords.
  assert (Hfilter : match category with
                    | Some c => if (c =? "")%string then None else Some c
                    | None => None
                    end = filter).
  { subst filter. destruct category as [[|a c]|]; reflexivity. }
  rewrite Hfilter, Herr, Hdata. eexists. split; [reflexivity|].
  clear. induction rows as [|row rows IH]; cbn [map]; constructor.
  - cbn [TrendingKeyword.keyword TrendingKeyword.search_volume
           TrendingKeyword.competition_index TrendingKeyword.category
           TrendingKeyword.velocity_score].
    split; [reflexivity|]. split; [reflexivity|]. split; [reflexivity|].
    split; [reflexivity|].
    destruct (TrendingRow.trend_analysis row) as [[|[v|] l]|]; reflexivity.
  - exact IH.
Qed.

Lemma trending_keywords_follow_rows_witness :
  let rows :=
    [ TrendingRow.mk "k1" "im just ken" 900 30 "rising" "barbie-core"
        (Some [Some 65; Some 10]);
      TrendingRow.mk "k2" "mrballen" 400 55 "rising" "true-crime" None ] in
  let supabase := queries_with rows [] no_row in
  Supabase.error (Queries.keywords_rising supabase None 12) = None
  /\ Supabase.data (Queries.keywords_rising supabase None 12) = Some rows
  /\ exists result,
       KeywordAnalyzerQueries.getTrendingKeywords supabase None 12
       = Resolved result
       /\ map TrendingKeyword.velocity_score result = [65; 0].
Proof.
  cbv zeta. split; [reflexivity | split; [reflexivity |]].
  destruct (proj2 (trending_keywords_follow_rows
                     (queries_with
                        [ TrendingRow.mk "k1" "im just ken" 900 30 "rising"
                            "barbie-core" (Some [Some 65; Some 10]);
                          TrendingRow.mk "k2" "mrballen" 400 55 "rising"
                            "true-crime" None ] [] no_row) 12%Z)
              None _ eq_refl eq_refl)
    as (result & Hres & _).
  exists result. split; [exact Hres|].
  cbv in Hres. injection Hres as <-. reflexivity.
Defined.

(** X17.  getRelatedKeywords with no relationship row resolves to the
    empty sequence without depending on the second read; with rows, its
    outcome is the one of the read of the keywords whose ids are those of
    the rows, in their order; and it fails when the read of the
    relationships reports an error or gives no data. *)
Theorem related_keywords_outcome :
  forall supabase keywordId,
    let relationships := Queries.relationships_of supabase keywordId in
    (Supabase.error relationships = None ->
     Supabase.data relationships = Some [] ->
     KeywordAnalyzerQueries.getRelatedKeywords supabase keywordId
     = Resolved [])
    /\ (forall rows,
           Supabase.error relationships = None ->
           Supabase.data relationships = Some rows ->
           rows <> [] ->
           let keywords :=
             Queries.keywords_in supabase
               (map RelationshipRow.related_keyword_id rows) in
           KeywordAnalyzerQueries.getRelatedKeywords supabase keywordId
           = match Supabase.error keywords, Supabase.data keywords with
             | None, Some found => Resolved found
             | keyError, _ =>
                 Rejected ("Failed to fetch related keywords: "
                             ++ Supabase.message_of keyError)
             end)
    /\ (Supabase.error relationships <> None
        \/ Supabase.data relationships = None ->
        KeywordAnalyzerQueries.getRelatedKeywords supabase keywordId
        = Rejected ("Failed to fetch relationships: "
                      ++ Supabase.message_of (Supabase.error relationships))).
Proof.
  intros supabase keywordId relationships. subst relationships.
  unfold KeywordAnalyzerQueries.getRelatedKeywords.
  split; [|split].
  - intros -> ->. reflexivity.
  - intros rows -> -> Hne. cbv zeta.
    destruct rows as [|row rows]; [congruence | reflexivity].
  - destruct (Supabase.error _) as [e|], (Supabase.data _) as [d|];
      intros [H | H]; try reflexivity; try discriminate; now contradiction H.
Qed.

Lemma related_keywords_outcome_witness :
  let supabase := queries_with [] [] (failed "connection reset") in
  Supabase.error (Queries.relationships_of supabase "k1") = None
  /\ Supabase.data (Queries.relationships_of supabase "k1") = Some []
  /\ Supabase.error (Queries.keywords_in supabase []) <> None
  /\ KeywordAnalyzerQueries.getRelatedKeywords supabase "k1" = Resolved [].
Proof.
  cbv zeta.
  split; [reflexivity | split; [reflexivity | split; [discriminate |]]].
  exact (proj1 (related_keywords_outcome
                  (queries_with [] [] (failed "connection reset"))
                  "k1"%string) eq_refl eq_refl).
Defined.

(** X18.  searchKeyword fails exactly when the read reports an error
    whose code is not PGRST116; in every other case, an error of code
    PGRST116 included, it resolves to the row that the read gives for the
    pattern %keyword%, or to null. *)
Theorem search_keyword_outcome :
  forall supabase keyword,
    let response :=
      Queries.keywords_ilike supabase ("%" ++ keyword ++ "%")%string in
    ((exists message,
         KeywordAnalyzerQueries.searchKeyword supabase keyword
         = Rejected message)
     <-> exists error,
           Supabase.error response = Some error
           /\ Supabase.code error <> "PGRST116"%string)
    /\ ((forall error,
            Supabase.error response = Some error ->
            Supabase.code error = "PGRST116"%string) ->
        KeywordAnalyzerQueries.searchKeyword supabase keyword
        = Resolved (Supabase.data response)).
Proof.
  intros supabase keyword response. subst response.
  unfold KeywordAnalyzerQueries.searchKeyword.
  destruct (Supabase.error _) as [e|].
  - destruct (String.eqb_spec (Supabase.code e) "PGRST116") as [E|E];
      cbn [negb]; split.
    + split; [intros [message H]; discriminate|].
      intros (e' & He' & Hcode). congruence.
    + reflexivity.
    + split; [|intros _; eexists; reflexivity].
      intros _. exists e. split; [reflexivity | exact E].
    + intros H. exfalso. apply E. now apply H.
  - split; [|reflexivity].
    split; [intros [message H]; discriminate | intros (e' & He' & _)].
    discriminate.
Qed.

Lemma search_keyword_outcome_witness :
  let supabase := queries_with [] [] no_row in
  (forall error,
      Supabase.error (Queries.keywords_ilike supabase "%tesla%")
      = Some error ->
      Supabase.code error = "PGRST116"%string)
  /\ Supabase.error (Queries.keywords_ilike supabase "%tesla%") <> None
  /\ KeywordAnalyzerQueries.searchKeyword supabase "tesla" = Resolved None.
Proof.
  cbv zeta.
  assert (H : forall error,
             Supabase.error
               (Queries.keywords_ilike (queries_with [] [] no_row) "%tesla%")
             = Some error ->
             Supabase.code error = "PGRST116"%string).
  { intros error E. cbn in E. injection E as <-. reflexivity. }
  split; [exact H | split; [discriminate |]].
  exact (proj2 (search_keyword_outcome (queries_with [] [] no_row)
                  "tesla"%string) H).
Defined.

(* ================================================================== *)
(** * The importer *)

Lemma ascii_toLowerCase_idempotent (c : ascii) :
  ascii_toLowerCase (ascii_toLowerCase c) = ascii_toLowerCase c.
Proof. destruct c as [[] [] [] [] [] [] [] []]; reflexivity. Qed.

Lemma is_space_toLowerCase (c : ascii) :
  is_space (ascii_toLowerCase c) = is_space c.
Proof. destruct c as [[] [] [] [] [] [] [] []]; reflexivity. Qed.

Lemma String_toLowerCase_idempotent (s : string) :
  String_toLowerCase (String_toLowerCase s) = String_toLowerCase s.
Proof.
  induction s as [|c s IH]; cbn; [reflexivity|].
  now rewrite ascii_toLowerCase_idempotent, IH.
Qed.

Lemma String_trimStart_toLowerCase (s : string) :
  String_trimStart (String_toLowerCase s)
  = String_toLowerCase (String_trimStart s).
Proof.
  induction s as [|c s IH]; cbn; [reflexivity|].
  rewrite is_space_toLowerCase. now destruct (is_space c).
Qed.

Lemma String_trimEnd_toLowerCase (s : string) :
  String_trimEnd (String_toLowerCase s)
  = String_toLowerCase (String_trimEnd s).
Proof.
  induction s as [|c s IH]; cbn; [reflexivity|].
  rewrite IH, is_space_toLowerCase.
  destruct (String_trimEnd s); cbn; [now destruct (is_space c) | reflexivity].
Qed.

Lemma String_trim_toLowerCase (s : string) :
  String_trim (String_toLowerCase s) = String_toLowerCase (String_trim s).
Proof.
  unfold String_trim.
  now rewrite String_trimStart_toLowerCase, String_trimEnd_toLowerCase.
Qed.

Lemma String_trimEnd_idempotent (s : string) :
  String_trimEnd (String_trimEnd s) = String_trimEnd s.
Proof.
  induction s as [|c s IH]; cbn; [reflexivity|].
  destruct (String_trimEnd s) as [|c' r] eqn:E.
  - destruct (is_space c) eqn:Hc; cbn; [reflexivity | now rewrite Hc].
  - cbn [String_trimEnd] in *. now rewrite IH.
Qed.

Local Abbreviation starts_clean t :=
  (match t with
   | EmptyString => True
   | String c _ => is_space c = false
   end).

Lemma String_trimStart_clean (s : string) :
  starts_clean (String_trimStart s).
Proof.
  induction s as [|c s IH]; cbn; [exact I|].
  destruct (is_space c) eqn:Hc; [exact IH | exact Hc].
Qed.

Lemma String_trimStart_of_clean (t : string) :
  starts_clean t -> String_trimStart t = t.
Proof. destruct t as [|c t]; cbn; [reflexivity | now intros ->]. Qed.

Lemma String_trimEnd_keeps_clean (t : string) :
  starts_clean t -> starts_clean (String_trimEnd t).
Proof.
  destruct t as [|c t]; cbn; [trivial|]. intros Hc.
  destruct (String_trimEnd t); [now rewrite Hc | exact Hc].
Qed.

Lemma String_trim_idempotent (s : string) :
  String_trim (String_trim s) = String_trim s.
Proof.
  unfold String_trim.
  rewrite (String_trimStart_of_clean (String_trimEnd (String_trimStart s))).
  - apply String_trimEnd_idempotent.
  - apply String_trimEnd_keeps_clean, String_trimStart_clean.
Qed.

Lemma normalize_idempotent (s : string) :
  String_trim (String_toLowerCase (String_trim (String_toLowerCase s)))
  = String_trim (String_toLowerCase s).
Proof.
  rewrite <- (String_trim_toLowerCase (String_toLowerCase s)).
  now rewrite String_trim_idempotent, String_toLowerCase_idempotent.
Qed.

Lemma clamp_0_idempotent (x : Q) :
  Math.max 0 (Math.max 0 x) = Math.max 0 x.
Proof.
  unfold Math.max. destruct (Qle_bool 0 x) eqn:E; [now rewrite E|].
  reflexivity.
Qed.

Lemma clamp_0_100_idempotent (x : Q) :
  Math.max 0 (Math.min 100 (Math.max 0 (Math.min 100 x)))
  = Math.max 0 (Math.min 100 x).
Proof.
  unfold Math.max, Math.min.
  destruct (Qle_bool 100 x) eqn:E1; [reflexivity|].
  destruct (Qle_bool 0 x) eqn:E2; [now rewrite E1, E2 | reflexivity].
Qed.

Lemma clamp_0_100_range (x : Q) :
  0 <= Math.max 0 (Math.min 100 x) <= 100
  /\ (0 <= x <= 100 -> Math.max 0 (Math.min 100 x) == x).
Proof.
  destruct (Math_min_spec 100 x) as [[? ->] | [? ->]];
    [destruct (Math_max_spec 0 100) as [[? ->] | [? ->]]
    | destruct (Math_max_spec 0 x) as [[? ->] | [? ->]]];
    (split; [split; lra | intros; lra]).
Qed.

Lemma clamp_0_range (x : Q) :
  0 <= Math.max 0 x /\ (0 <= x -> Math.max 0 x == x).
Proof.
  destruct (Math_max_spec 0 x) as [[? ->] | [? ->]];
    (split; [lra | intros; lra]).
Qed.

(** X19.  Whatever the input, the row that importKeywords builds has a
    search volume of at least 0 and a competition index between 0 and 100;
    values that are inside these ranges are kept, and a missing trend
    status becomes stable.  importKeywords sends one such row for each
    input, fails when the upsert reports an error, and resolves to the
    rows the upsert returns, or to the empty sequence when it returns
    none. *)
Theorem import_keywords_sends_clamped_rows :
  (forall k,
      let row := DataImporter.sanitize k in
      0 <= SanitizedKeyword.search_volume row
      /\ 0 <= SanitizedKeyword.competition_index row <= 100
      /\ (0 <= KeywordInput.search_volume k ->
          SanitizedKeyword.search_volume row == KeywordInput.search_volume k)
      /\ (0 <= KeywordInput.competition_index k <= 100 ->
          SanitizedKeyword.competition_index row
          == KeywordInput.competition_index k)
      /\ (KeywordInput.trend_status k = None ->
          SanitizedKeyword.trend_status row = stable))
  /\ (forall supabase keywords,
         exists rows,
           List.length rows = List.length keywords
           /\ Forall
                (fun row =>
                   0 <= SanitizedKeyword.search_volume row
                   /\ 0 <= SanitizedKeyword.competition_index row <= 100)
                rows
           /\ DataImporter.importKeywords supabase keywords
              = match Supabase.error (Queries.keywords_upsert supabase rows),
                      Supabase.data (Queries.keywords_upsert supabase rows)
                with
                | Some error, _ =>
                    Rejected ("Import failed: " ++ Supabase.message error)
                | None, Some data => Resolved data
                | None, None => Resolved []
                end).
Proof.
  split.
  - intros k row. subst row. unfold DataImporter.sanitize.
    cbn [SanitizedKeyword.search_volume SanitizedKeyword.competition_index
           SanitizedKeyword.trend_status].
    destruct (clamp_0_range (KeywordInput.search_volume k)) as [H1 H2].
    destruct (clamp_0_100_range (KeywordInput.competition_index k))
      as [H3 H4].
    repeat split; try tauto. now intros ->.
  - intros supabase keywords.
    exists (map DataImporter.sanitize keywords).
    split; [apply length_map|]. split.
    + apply Forall_forall. intros row Hrow. apply in_map_iff in Hrow.
      destruct Hrow as (k & <- & _). unfold DataImporter.sanitize.
      cbn [SanitizedKeyword.search_volume SanitizedKeyword.competition_index].
      split; [apply clamp_0_range | apply clamp_0_100_range].
    + unfold DataImporter.importKeywords.
      destruct (Supabase.error _) as [e|]; [reflexivity|].
      now destruct (Supabase.data _).
Qed.

Lemma import_keywords_sends_clamped_rows_witness :
  0 <= KeywordInput.competition_index
         (KeywordInput.mk "  Mojo Dojo House " 1340 25 "Barbie-Core" None)
    <= 100
  /\ SanitizedKeyword.competition_index
       (DataImporter.sanitize
          (KeywordInput.mk "  Mojo Dojo House " 1340 25 "Barbie-Core" None))
     == 25.
Proof.
  assert (H : 0 <= KeywordInput.competition_index
                     (KeywordInput.mk "  Mojo Dojo House " 1340 25
                        "Barbie-Core" None) <= 100)
    by (split; discriminate).
  split; [exact H|].
  destruct (proj1 import_keywords_sends_clamped_rows
              (KeywordInput.mk "  Mojo Dojo House " 1340 25
                 "Barbie-Core" None))
    as (_ & _ & _ & Hci & _).
  exact (Hci H).
Defined.

(** X20.  Sanitizing is idempotent: a row built by importKeywords, given
    back as an input, gives the same row, text included (lower case,
    without blanks at either end). *)
Theorem sanitize_idempotent :
  forall k,
    DataImporter.sanitize (as_input (DataImporter.sanitize k))
    = DataImporter.sanitize k.
Proof.
  intros k. unfold DataImporter.sanitize, as_input.
  cbn [KeywordInput.keyword KeywordInput.search_volume
         KeywordInput.competition_index KeywordInput.category
         KeywordInput.trend_status
         SanitizedKeyword.keyword SanitizedKeyword.search_volume
         SanitizedKeyword.competition_index SanitizedKeyword.category
         SanitizedKeyword.trend_status].
  now rewrite !normalize_idempotent, clamp_0_idempotent,
    clamp_0_100_idempotent.
Qed.

(** The sanitized row of a sample input. *)
Example sanitize_sample :
  DataImporter.sanitize
    (KeywordInput.mk "  Mojo Dojo House " (-5) 130 "Barbie-Core" None)
  = SanitizedKeyword.mk "mojo dojo house" 0 100 "barbie-core" stable.
Proof. reflexivity. Qed.

Lemma prefix_spec (sub s : string) :
  String.prefix sub s = true <-> exists post, s = (sub ++ post)%string.
Proof.
  revert s. induction sub as [|c sub IH]; intros s.
  - split; [intros _; now exists s | now destruct s].
  - destruct s as [|c' s]; cbn.
    + split; [discriminate | intros [post H]; discriminate].
    + destruct (Ascii.ascii_dec c c') as [->|Hc].
      * rewrite IH. split; intros [post H]; exists post.
        -- now rewrite H.
        -- now injection H.
      * split; [discriminate|]. intros [post H]. injection H as E _.
        congruence.
Qed.

Lemma String_includes_spec (s sub : string) :
  String_includes s sub = true
  <-> exists pre post, s = (pre ++ sub ++ post)%string.
Proof.
  induction s as [|c s IH].
  - cbn [String_includes]. rewrite orb_false_r, prefix_spec. split.
    + intros [post H]. now exists EmptyString, post.
    + intros ([|c pre] & post & H); [now exists post | discriminate].
  - cbn [String_includes]. rewrite orb_true_iff, prefix_spec, IH. split.
    + intros [[post H] | (pre & post & H)].
      * now exists EmptyString, post.
      * exists (String c pre), post. cbn. now rewrite H.
    + intros ([|c' pre] & post & H).
      * left. now exists post.
      * right. exists pre, post. cbn in H. now injection H.
Qed.

(** X21.  addKeywordRelationship inserts a row whose correlation strength
    is clamped to [0, 100] (a strength within the range is kept), with the
    two ids and the type it was given.  It fails exactly when the insert
    reports an error whose message does not contain "duplicate"; a
    duplicate is passed over in silence and the data of the answer, null
    included, is returned. *)
Theorem add_relationship_outcome :
  forall supabase keywordId relatedKeywordId correlationStrength
         relationshipType,
    exists row,
      RelationshipInsert.keyword_id row = keywordId
      /\ RelationshipInsert.related_keyword_id row = relatedKeywordId
      /\ RelationshipInsert.relationship_type row = relationshipType
      /\ 0 <= RelationshipInsert.correlation_strength row <= 100
      /\ (0 <= correlationStrength <= 100 ->
          RelationshipInsert.correlation_strength row
          == correlationStrength)
      /\ let response := Queries.relationships_insert supabase row in
         let outcome :=
           DataImporter.addKeywordRelationship supabase keywordId
             relatedKeywordId correlationStrength relationshipType in
         ((exists message, outcome = Rejected message)
          <-> exists error,
                Supabase.error response = Some error
                /\ ~ exists pre post,
                       Supabase.message error
                       = (pre ++ "duplicate" ++ post)%string)
         /\ ((forall error,
                 Supabase.error response = Some error ->
                 exists pre post,
                   Supabase.message error
                   = (pre ++ "duplicate" ++ post)%string) ->
             outcome = Resolved (Supabase.data response)).
Proof.
  intros supabase keywordId relatedKeywordId correlationStrength
    relationshipType.
  eexists (RelationshipInsert.mk keywordId relatedKeywordId
             (Math.max 0 (Math.min 100 correlationStrength))
             relationshipType).
  cbn [RelationshipInsert.keyword_id RelationshipInsert.related_keyword_id
         RelationshipInsert.relationship_type
         RelationshipInsert.correlation_strength].
  destruct (clamp_0_100_range correlationStrength) as [Hrange Hkeep].
  split; [reflexivity|]. split; [reflexivity|]. split; [reflexivity|].
  split; [exact Hrange|]. split; [exact Hkeep|].
  cbv zeta. unfold DataImporter.addKeywordRelationship.
  destruct (Supabase.error _) as [e|].
  - destruct (String_includes (Supabase.message e) "duplicate") eqn:E;
      cbn [negb]; split.
    + split; [intros [message H]; discriminate|].
      intros (e' & He' & Hno). injection He' as <-.
      apply String_includes_spec in E. contradiction.
    + reflexivity.
    + split; [|intros _; eexists; reflexivity].
      intros _. exists e. split; [reflexivity|].
      intros H. apply String_includes_spec in H. congruence.
    + intros H. destruct (H e eq_refl) as (pre & post & Hm).
      assert (String_includes (Supabase.message e) "duplicate" = true)
        by (apply String_includes_spec; now exists pre, post).
      congruence.
  - split; [|reflexivity].
    split; [intros [message H]; discriminate | intros (e' & He' & _)].
    discriminate.
Qed.

Lemma add_relationship_outcome_witness :
  (exists pre post,
      "duplicate key value violates unique constraint"%string
      = (pre ++ "duplicate" ++ post)%string)
  /\ DataImporter.addKeywordRelationship (queries_with [] [] no_row)
       "k1" "k2" 125 cross_appeal
     = Resolved None.
Proof.
  assert (Hdup : exists pre post,
             "duplicate key value violates unique constraint"%string
             = (pre ++ "duplicate" ++ post)%string).
  { exists EmptyString, " key value violates unique constraint"%string.
    reflexivity. }
  split; [exact Hdup|].
  destruct (add_relationship_outcome (queries_with [] [] no_row)
              "k1"%string "k2"%string 125 cross_appeal)
    as (row & _ & _ & _ & _ & _ & _ & Hresolved).
  apply Hresolved. intros error E. cbn in E. injection E as <-.
  exact Hdup.
Defined.

(* ================================================================== *)
(** * The result of [findOpportunities] is determined *)

(** X22.  The result of findOpportunities is the only arrangement of the
    scored candidates that is in non-increasing order of score and keeps
    the candidates of one score in their order: any sequence with these
    two properties is the sequence returned, whatever stable sorting
    algorithm produced it. *)
Theorem find_opportunities_unique_arrangement :
  forall supabase minSearchVolume maxCompetitionIndex candidates arrangement,
    Supabase.error
      (Supabase.keywords_candidates supabase
         minSearchVolume maxCompetitionIndex) = None ->
    Supabase.data
      (Supabase.keywords_candidates supabase
         minSearchVolume maxCompetitionIndex) = Some candidates ->
    StronglySorted
      (fun a b => (OpportunityScore.opportunity_score b
                   <= OpportunityScore.opportunity_score a)%Z)
      arrangement ->
    (forall score,
        filter (fun o => (OpportunityScore.opportunity_score o =? score)%Z)
               arrangement
        = filter (fun o => (OpportunityScore.opportunity_score o =? score)%Z)
                 (map (KeywordAnalyzer.scoreCandidate supabase) candidates)) ->
    KeywordAnalyzer.findOpportunities supabase
      minSearchVolume maxCompetitionIndex = Resolved arrangement.
Proof.
  intros supabase minSearchVolume maxCompetitionIndex candidates arrangement
    Herr Hdata Hsorted Hstable.
  unfold KeywordAnalyzer.findOpportunities. rewrite Herr, Hdata.
  rewrite push_loop. cbn [app]. f_equal. symmetry.
  apply (sort_is_the_stable_sort OpportunityScore.opportunity_score);
    [|exact Hsorted | exact Hstable].
  intros a b.
  destruct (Z.ltb_spec 0 (OpportunityScore.opportunity_score b
                          - OpportunityScore.opportunity_score a)),
    (Z.ltb_spec (OpportunityScore.opportunity_score a)
                (OpportunityScore.opportunity_score b));
    try reflexivity; lia.
Qed.

Lemma find_opportunities_unique_arrangement_witness :
  let candidates :=
    [ sample_keyword "k1" 600 20 peak; sample_keyword "k2" 6000 20 peak ] in
  let supabase := client_with candidates [] in
  let arrangement :=
    [ KeywordAnalyzer.scoreCandidate supabase (sample_keyword "k2" 6000 20 peak);
      KeywordAnalyzer.scoreCandidate supabase (sample_keyword "k1" 600 20 peak) ]
  in
  StronglySorted
    (fun a b => (OpportunityScore.opportunity_score b
                 <= OpportunityScore.opportunity_score a)%Z)
    arrangement
  /\ KeywordAnalyzer.findOpportunities supabase 100 50 = Resolved arrangement.
Proof.
  cbv zeta.
  set (supabase := client_with
                     [ sample_keyword "k1" 600 20 peak;
                       sample_keyword "k2" 6000 20 peak ] []).
  set (o1 := KeywordAnalyzer.scoreCandidate supabase
               (sample_keyword "k1" 600 20 peak)).
  set (o2 := KeywordAnalyzer.scoreCandidate supabase
               (sample_keyword "k2" 6000 20 peak)).
  assert (Hsorted : StronglySorted
                      (fun a b => (OpportunityScore.opportunity_score b
                                   <= OpportunityScore.opportunity_score a)%Z)
                      [o2; o1]).
  { repeat constructor. cbv. discriminate. }
  split; [exact Hsorted|].
  apply (find_opportunities_unique_arrangement supabase 100 50
           [ sample_keyword "k1" 600 20 peak;
             sample_keyword "k2" 6000 20 peak ] [o2; o1])%Z;
    [reflexivity | reflexivity | exact Hsorted |].
  intros score. subst o1 o2 supabase. cbv -[Z.eqb].
  destruct (Z.eqb_spec 32 score), (Z.eqb_spec 25 score);
    try reflexivity; lia.
Defined.
